(** * LoRA on RoBERTa self-attention: a shallow embedding of
      [lora_implementation_scratch.py]

    The file follows the source top to bottom:
    - Python strings, exceptions and results;
    - the tensor operations the source calls ([torch.zeros], [torch.randn],
      [torch.matmul], [F.linear], [+], [torch.cat]), over exact integers;
    - [nn.Module] as a tree with named parameters, buffers and children,
      with [state_dict], [load_state_dict(strict=False)] and
      [named_parameters];
    - the class [LoraRobertaSelfAttention] (constructor, [lora_query],
      [lora_value], and of [forward] the projections, the lookup of the
      relative positions and the merge of the heads), with the layouts of
      its modules;
    - the class [LoraWrapperRobertaHelper] (constructor, module replacement,
      freezing policy and the statements that follow its loop).

    Tensor entries are integers: the algebra of the source is modelled, not
    the rounding of IEEE floats. *)

From Stdlib Require Import ZArith List String Ascii Bool Lia.
From stdpp Require Import base gmap sets list strings.
Import ListNotations.
Local Open Scope string_scope.
Local Open Scope list_scope.

(** ** Python strings *)

(** [s.startswith(p)] *)
Fixpoint startswith (p s : string) : bool :=
  match p, s with
  | EmptyString, _ => true
  | String a p', String b s' => Ascii.eqb a b && startswith p' s'
  | String _ _, EmptyString => false
  end.

(** [p in s] for two strings: [p] occurs in [s] as a contiguous run. *)
Fixpoint contains (p s : string) : bool :=
  startswith p s ||
  match s with
  | EmptyString => false
  | String _ s' => contains p s'
  end.

(** What [p in s] means: [s] is some prefix, then [p], then some suffix. *)
Definition Occurs (p s : string) : Prop :=
  exists pre suf : string, s = pre +:+ p +:+ suf.

(** ** Exceptions and results *)

(** The exceptions the modelled code can raise.  [AssertionError] carries the
    two key sets that the source interpolates into its message. *)
Inductive Exn : Type :=
| UnboundLocalError (variable : string)
| AssertionError (expected_parameters new_parameters : gset string)
| ValueError (msg : string)
| TypeError (msg : string)
| RuntimeError (msg : string)
| AttributeError (attribute : string)
| KeyError (key : string)
| ZeroDivisionError
| OSError (model_id : string)
| FileNotFoundError (path : string)
| OutOfFuel.

Inductive Result (A : Type) : Type :=
| Ok (a : A)
| Raise (e : Exn).
Arguments Ok {A} a.
Arguments Raise {A} e.

(** [Result] is a monad in stdpp's sense: [x ← r; k] runs [k] on the value of
    [r] and passes an exception of [r] on. *)
#[global] Instance Result_ret : MRet Result := fun A a => Ok a.
#[global] Instance Result_bind : MBind Result := fun A B k r =>
  match r with
  | Ok a => k a
  | Raise e => Raise e
  end.

Definition is_ok {A : Type} (r : Result A) : bool :=
  match r with Ok _ => true | Raise _ => false end.

(** ** Tensors

    A tensor is its shape and its entries in row-major order, as in torch.
    The operations below are the ones the source calls; each checks the shapes
    torch checks and raises [RuntimeError] where torch does. *)

Record Tensor : Type := mkTensor { shape : list nat; data : list Z }.

(** Number of entries of a tensor of shape [sh]. *)
Definition numel (sh : list nat) : nat := fold_right Nat.mul 1 sh.

(** Entry [i] of a flat list of entries. *)
Definition entry (l : list Z) (i : nat) : Z := nth i l 0%Z.

(** The global random generator of torch, as the stream of values it has yet
    to produce. *)
Definition Rng : Type := nat -> Z.

(** [torch.zeros(sh)] *)
Definition torch_zeros (sh : list nat) : Tensor :=
  mkTensor sh (repeat 0%Z (numel sh)).

(** [torch.randn(sh)]: takes the next [numel sh] values of the generator. *)
Definition torch_randn (sh : list nat) (g : Rng) : Tensor * Rng :=
  (mkTensor sh (map g (seq 0 (numel sh))), fun i => g (numel sh + i)).

(** Sum over [l < k] of [f l * g l]. *)
Definition dot (k : nat) (f g : nat -> Z) : Z :=
  fold_right Z.add 0%Z (map (fun l => (f l * g l)%Z) (seq 0 k)).

(** [torch.matmul(a, b)] for two matrices, the case the source uses. *)
Definition torch_matmul (a b : Tensor) : Result Tensor :=
  match shape a, shape b with
  | [m; k], [k'; n] =>
      if Nat.eqb k k' then
        Ok (mkTensor [m; n]
              (flat_map (fun i =>
                 map (fun j => dot k (fun l => entry (data a) (i * k + l))
                                     (fun l => entry (data b) (l * n + j)))
                     (seq 0 n))
                 (seq 0 m)))
      else Raise (RuntimeError "mat1 and mat2 shapes cannot be multiplied")
  | _, _ => Raise (RuntimeError "matmul: operands are not both matrices")
  end.

(** A shape [lead ++ [k]] split into [lead] and [k]. *)
Definition split_last_dim (sh : list nat) : option (list nat * nat) :=
  match rev sh with
  | [] => None
  | k :: rlead => Some (rev rlead, k)
  end.

(** [F.linear(x, W, b)]: every row of [x] (over its last axis) times the
    transpose of [W], plus [b] when there is one. *)
Definition F_linear (x W : Tensor) (b : option Tensor) : Result Tensor :=
  match split_last_dim (shape x), shape W with
  | Some (lead, k), [out; k'] =>
      if Nat.eqb k k' then
        let row i := map (fun j => dot k (fun l => entry (data x) (i * k + l))
                                         (fun l => entry (data W) (j * k + l)))
                         (seq 0 out) in
        match b with
        | None => Ok (mkTensor (lead ++ [out]) (flat_map row (seq 0 (numel lead))))
        | Some bias =>
            if bool_decide (shape bias = [out]) then
              Ok (mkTensor (lead ++ [out])
                    (flat_map (fun i => zip_with Z.add (row i) (data bias))
                              (seq 0 (numel lead))))
            else Raise (RuntimeError "linear: bias shape does not match")
        end
      else Raise (RuntimeError "mat1 and mat2 shapes cannot be multiplied")
  | _, _ => Raise (RuntimeError "linear: bad operand rank")
  end.

(** [a + b] for two tensors of one shape, the case the source uses. *)
Definition torch_add (a b : Tensor) : Result Tensor :=
  if bool_decide (shape a = shape b) then
    Ok (mkTensor (shape a) (zip_with Z.add (data a) (data b)))
  else Raise (RuntimeError "add: shapes differ").

(** The block of [len] entries of [l] that starts at [start]. *)
Definition slice (l : list Z) (start len : nat) : list Z :=
  take len (drop start l).

(** [torch.cat([a, b], dim=dim)]: the shapes agree off axis [dim]; along it
    the entries of [a] come first, then those of [b]. *)
Definition torch_cat (a b : Tensor) (dim : nat) : Result Tensor :=
  match drop dim (shape a), drop dim (shape b) with
  | na :: resta, nb :: restb =>
      if bool_decide (take dim (shape a) = take dim (shape b) /\ resta = restb)
      then
        let inner := numel resta in
        Ok (mkTensor (take dim (shape a) ++ (na + nb) :: resta)
              (flat_map (fun o => slice (data a) (o * (na * inner)) (na * inner)
                                  ++ slice (data b) (o * (nb * inner)) (nb * inner))
                        (seq 0 (numel (take dim (shape a))))))
      else Raise (RuntimeError "cat: sizes of tensors must match except in the cat dimension")
  | _, _ => Raise (RuntimeError "cat: dimension out of range")
  end.

(** A tensor whose entries are all zero, and one that has as many entries
    as its shape says. *)
Definition all_zero (t : Tensor) : Prop := Forall (fun z => z = 0%Z) (data t).
Definition well_formed (t : Tensor) : Prop := length (data t) = numel (shape t).

(** ** [nn.Module]

    A module is its class, its plain attributes (only the attention classes
    have any that the source reads), and the three ordered dictionaries of
    torch: parameters, buffers and child modules.  Modules and parameters
    are values here: one object registered under two names, which torch
    lists once, is not modelled. *)

Record Param : Type := mkParam { p_data : Tensor; requires_grad : bool }.

(** [nn.Parameter(t)]: trainable unless told otherwise. *)
Definition nn_Parameter (t : Tensor) : Param := mkParam t true.

Inductive PyClass : Type :=
| RobertaSelfAttention
| LoraRobertaSelfAttention
| OtherClass (name : string).

(** [isinstance(module, RobertaSelfAttention)]: the class itself or its
    subclass [LoraRobertaSelfAttention]. *)
Definition isinstance_RobertaSelfAttention (c : PyClass) : bool :=
  match c with
  | RobertaSelfAttention | LoraRobertaSelfAttention => true
  | OtherClass _ => false
  end.

(** The plain attributes that [RobertaSelfAttention.__init__] sets. *)
Record AttentionAttrs : Type := mkAttentionAttrs {
  num_attention_heads : nat;
  attention_head_size : nat;
  all_head_size : nat;
  position_embedding_type : string;
  max_position_embeddings : option nat;
  is_decoder : bool }.

#[warnings="-register-all"] Inductive Module : Type := mkModule {
  m_class : PyClass;
  m_attrs : option AttentionAttrs;
  m_parameters : list (string * Param);
  m_buffers : list (string * Tensor);
  m_modules : list (string * Module) }.

(** Lookup in an ordered dictionary. *)
Fixpoint assoc {A : Type} (k : string) (d : list (string * A)) : option A :=
  match d with
  | [] => None
  | (k', v) :: d' => if String.eqb k' k then Some v else assoc k d'
  end.

(** [self.<name>] for a parameter, a child module, the plain attributes. *)
Definition get_parameter (self : Module) (name : string) : Result Tensor :=
  match assoc name (m_parameters self) with
  | Some p => Ok (p_data p)
  | None => Raise (AttributeError name)
  end.

Definition get_module (self : Module) (name : string) : Result Module :=
  match assoc name (m_modules self) with
  | Some m => Ok m
  | None => Raise (AttributeError name)
  end.

Definition get_attrs (self : Module) : Result AttentionAttrs :=
  match m_attrs self with
  | Some a => Ok a
  | None => Raise (AttributeError "all_head_size")
  end.

(** [self.<name> = nn.Parameter(t)]: registers a new parameter, last. *)
Definition register_parameter (self : Module) (name : string) (t : Tensor) : Module :=
  mkModule (m_class self) (m_attrs self)
           (m_parameters self ++ [(name, nn_Parameter t)])
           (m_buffers self) (m_modules self).

(** [module.named_children()] *)
Definition named_children (m : Module) : list (string * Module) := m_modules m.

(** [module.state_dict(prefix=prefix)]: own parameters, own buffers, then
    the children, each under its name and a dot. *)
Fixpoint state_dict_from (prefix : string) (m : Module) : list (string * Tensor) :=
  match m with
  | mkModule _ _ params buffers children =>
      map (fun np => (prefix +:+ fst np, p_data (snd np))) params
      ++ map (fun nb => (prefix +:+ fst nb, snd nb)) buffers
      ++ flat_map (fun nc => state_dict_from (prefix +:+ fst nc +:+ ".") (snd nc))
                  children
  end.

Definition state_dict (m : Module) : list (string * Tensor) := state_dict_from "" m.

(** [module.named_parameters(prefix=prefix)] *)
Fixpoint named_parameters_from (prefix : string) (m : Module)
  : list (string * Param) :=
  match m with
  | mkModule _ _ params _ children =>
      map (fun np => (prefix +:+ fst np, snd np)) params
      ++ flat_map (fun nc => named_parameters_from (prefix +:+ fst nc +:+ ".") (snd nc))
                  children
  end.

Definition named_parameters (m : Module) : list (string * Param) :=
  named_parameters_from "" m.

(** One entry of [_load_from_state_dict]: a key that is present with the right
    shape is copied, anything else leaves the entry as it is. *)
Definition load_tensor (sd : list (string * Tensor)) (key : string) (t : Tensor) : Tensor :=
  match assoc key sd with
  | Some input => if bool_decide (shape input = shape t) then input else t
  | None => t
  end.

(** The key is reported when it is present with another shape. *)
Definition load_error (sd : list (string * Tensor)) (key : string) (t : Tensor) : list string :=
  match assoc key sd with
  | Some input => if bool_decide (shape input = shape t) then [] else [key]
  | None => []
  end.

(** The module after [load] of [load_state_dict] has walked it. *)
Fixpoint load_from (sd : list (string * Tensor)) (prefix : string) (m : Module) : Module :=
  match m with
  | mkModule cls attrs params buffers children =>
      mkModule cls attrs
        (map (fun np => (fst np,
                         mkParam (load_tensor sd (prefix +:+ fst np) (p_data (snd np)))
                                     (requires_grad (snd np)))) params)
        (map (fun nb => (fst nb, load_tensor sd (prefix +:+ fst nb) (snd nb))) buffers)
        (map (fun nc => (fst nc, load_from sd (prefix +:+ fst nc +:+ ".") (snd nc)))
             children)
  end.

(** The [error_msgs] that walk collects. *)
Fixpoint load_errors (sd : list (string * Tensor)) (prefix : string) (m : Module)
  : list string :=
  match m with
  | mkModule _ _ params buffers children =>
      flat_map (fun np => load_error sd (prefix +:+ fst np) (p_data (snd np))) params
      ++ flat_map (fun nb => load_error sd (prefix +:+ fst nb) (snd nb)) buffers
      ++ flat_map (fun nc => load_errors sd (prefix +:+ fst nc +:+ ".") (snd nc))
                  children
  end.

(** [module.load_state_dict(sd, strict=False)]: keys of [sd] the module does
    not have and keys of the module that [sd] lacks are both tolerated; a
    shape mismatch is not. *)
Definition load_state_dict (m : Module) (sd : list (string * Tensor)) : Result Module :=
  match load_errors sd "" m with
  | [] => Ok (load_from sd "" m)
  | _ :: _ => Raise (RuntimeError "Error(s) in loading state_dict")
  end.

(** ** The layers of torch and transformers that the source builds on *)

(** The fields of the model configuration that the attention classes read. *)
Record Config : Type := mkConfig {
  cfg_hidden_size : nat;
  cfg_num_attention_heads : nat;
  cfg_position_embedding_type : string;
  cfg_max_position_embeddings : nat;
  cfg_is_decoder : bool }.

(** [nn.Linear(in_features, out_features)]: a random weight and bias. *)
Definition nn_Linear (in_features out_features : nat) (g : Rng) : Module * Rng :=
  let '(w, g1) := torch_randn [out_features; in_features] g in
  let '(b, g2) := torch_randn [out_features] g1 in
  (mkModule (OtherClass "Linear") None
            [("weight", nn_Parameter w); ("bias", nn_Parameter b)] [] [], g2).

(** [linear(x)] for a [nn.Linear] module. *)
Definition Linear_forward (self : Module) (x : Tensor) : Result Tensor :=
  w ← get_parameter self "weight";
  b ← get_parameter self "bias";
  F_linear x w (Some b).

(** [nn.Dropout(p)] has no parameters. *)
Definition nn_Dropout : Module := mkModule (OtherClass "Dropout") None [] [] [].

(** [nn.Embedding(num_embeddings, embedding_dim)] *)
Definition nn_Embedding (num_embeddings embedding_dim : nat) (g : Rng) : Module * Rng :=
  let '(w, g1) := torch_randn [num_embeddings; embedding_dim] g in
  (mkModule (OtherClass "Embedding") None [("weight", nn_Parameter w)] [] [], g1).

Definition is_relative (position_embedding_type : string) : bool :=
  String.eqb position_embedding_type "relative_key"
  || String.eqb position_embedding_type "relative_key_query".

(** [RobertaSelfAttention.__init__(config, position_embedding_type)] of
    transformers, run for an object of class [cls] (the class itself or the
    subclass of the source).  It refuses a hidden size that the number of
    heads does not divide, and builds the three projections, the dropout and,
    for the relative position embeddings, the distance embedding.  The
    position embedding type is the argument, or that of the configuration
    when the argument is [None] or empty.  The configuration is a
    [RobertaConfig], which has no [embedding_size]. *)
Definition RobertaSelfAttention_init (cls : PyClass) (config : Config)
    (position_embedding_type : option string) (g : Rng) : Result Module * Rng :=
  let hidden := cfg_hidden_size config in
  let heads := cfg_num_attention_heads config in
  if Nat.eqb heads 0 then (Raise ZeroDivisionError, g)
  else if negb (Nat.eqb (hidden mod heads) 0) then
    (Raise (ValueError "The hidden size is not a multiple of the number of attention heads"), g)
  else
    let head_size := hidden / heads in
    let all := heads * head_size in
    let '(query, g1) := nn_Linear hidden all g in
    let '(key, g2) := nn_Linear hidden all g1 in
    let '(value, g3) := nn_Linear hidden all g2 in
    let projections :=
      [("query", query); ("key", key); ("value", value); ("dropout", nn_Dropout)] in
    let pet := match position_embedding_type with
               | Some p => if String.eqb p "" then cfg_position_embedding_type config else p
               | None => cfg_position_embedding_type config
               end in
    if is_relative pet then
      if Nat.eqb (cfg_max_position_embeddings config) 0 then
        (Raise (RuntimeError "Trying to create tensor with negative dimension"), g3)
      else
        let '(distance_embedding, g4) :=
          nn_Embedding (2 * cfg_max_position_embeddings config - 1) head_size g3 in
        (Ok (mkModule cls
               (Some (mkAttentionAttrs heads head_size all pet
                        (Some (cfg_max_position_embeddings config))
                        (cfg_is_decoder config)))
               [] [] (projections ++ [("distance_embedding", distance_embedding)])), g4)
    else
      (Ok (mkModule cls
             (Some (mkAttentionAttrs heads head_size all pet None (cfg_is_decoder config)))
             [] [] projections), g3).

(** [RobertaSelfAttention.transpose_for_scores(x)]: [x] of shape
    (batch, sequence, heads * head size) is viewed as (batch, sequence, heads,
    head size) and permuted to (batch, heads, sequence, head size). *)
Definition transpose_for_scores (self : Module) (x : Tensor) : Result Tensor :=
  a ← get_attrs self;
  let H := num_attention_heads a in
  let hs := attention_head_size a in
  match shape x with
  | [b; s; w] =>
      if Nat.eqb (numel [b; s; w]) (numel [b; s; H; hs]) then
        Ok (mkTensor [b; H; s; hs]
              (flat_map (fun bi =>
                 flat_map (fun h =>
                   flat_map (fun si =>
                     map (fun j => entry (data x) ((bi * s + si) * (H * hs) + h * hs + j))
                         (seq 0 hs))
                     (seq 0 s))
                   (seq 0 H))
                 (seq 0 b)))
      else Raise (RuntimeError "view: shape is invalid for input size")
  | _ => Raise (RuntimeError "permute: number of dimensions does not match")
  end.

(** ** [class LoraRobertaSelfAttention(RobertaSelfAttention)] *)

(** [__init__(self, r, config)]: the base constructor, then the four LoRA
    matrices, [B] all zeros and [A] random.  A negative [r] is refused by
    [torch.zeros]. *)
Definition LoraRobertaSelfAttention_init (r : Z) (config : Config) (g : Rng)
  : Result Module * Rng :=
  match RobertaSelfAttention_init LoraRobertaSelfAttention config None g with
  | (Raise e, g0) => (Raise e, g0)
  | (Ok self, g0) =>
      match m_attrs self with
      | None => (Raise (AttributeError "all_head_size"), g0)
      | Some a =>
          let d := all_head_size a in
          if (r <? 0)%Z then
            (Raise (RuntimeError "Trying to create tensor with negative dimension"), g0)
          else
            let r := Z.to_nat r in
            let self := register_parameter self "lora_query_matrix_B" (torch_zeros [d; r]) in
            let '(qA, g1) := torch_randn [r; d] g0 in
            let self := register_parameter self "lora_query_matrix_A" qA in
            let self := register_parameter self "lora_value_matrix_B" (torch_zeros [d; r]) in
            let '(vA, g2) := torch_randn [r; d] g1 in
            let self := register_parameter self "lora_value_matrix_A" vA in
            (Ok self, g2)
      end
  end.

(** [self.query(x)], [self.key(x)], [self.value(x)]: the base projections. *)
Definition query (self : Module) (x : Tensor) : Result Tensor :=
  q ← get_module self "query"; Linear_forward q x.

Definition key (self : Module) (x : Tensor) : Result Tensor :=
  k ← get_module self "key"; Linear_forward k x.

Definition value (self : Module) (x : Tensor) : Result Tensor :=
  v ← get_module self "value"; Linear_forward v x.

(** [lora_query(self, x)] *)
Definition lora_query (self : Module) (x : Tensor) : Result Tensor :=
  B ← get_parameter self "lora_query_matrix_B";
  A ← get_parameter self "lora_query_matrix_A";
  lora_full_query_weights ← torch_matmul B A;
  base ← query self x;
  delta ← F_linear x lora_full_query_weights None;
  torch_add base delta.

(** [lora_value(self, x)] *)
Definition lora_value (self : Module) (x : Tensor) : Result Tensor :=
  B ← get_parameter self "lora_value_matrix_B";
  A ← get_parameter self "lora_value_matrix_A";
  lora_full_value_weights ← torch_matmul B A;
  base ← value self x;
  delta ← F_linear x lora_full_value_weights None;
  torch_add base delta.

(** The state in which one LoRA pair leaves its projection unchanged: [B] is
    the zero tensor of shape (d, r), [A] has shape (r, d), and the projection
    [proj] is a linear layer of d inputs and d outputs. *)
Definition zero_delta (self : Module) (Bname Aname proj : string) : Prop :=
  exists (d r : nat) (A : Tensor) (layer : Module) (w b : Tensor),
    get_parameter self Bname = Ok (torch_zeros [d; r]) /\
    get_parameter self Aname = Ok A /\ shape A = [r; d] /\
    get_module self proj = Ok layer /\
    get_parameter layer "weight" = Ok w /\ shape w = [d; d] /\
    get_parameter layer "bias" = Ok b /\ shape b = [d] /\ well_formed b.

(** What lines 68 to 106 of [forward] compute: the three per-head layers, the
    mask in force, whether a cache came in, and the cache that goes out. *)
Record Projections : Type := mkProjections {
  query_layer : Tensor;
  key_layer : Tensor;
  value_layer : Tensor;
  attention_mask : option Tensor;
  use_cache : bool;
  past_key_value : option (Tensor * Tensor) }.

(** [forward], lines 68 to 106: the query through [lora_query]; key, value
    and mask by the four cases on cross-attention and cache. *)
Definition forward_projections (self : Module) (hidden_states : Tensor)
    (attention_mask encoder_hidden_states encoder_attention_mask : option Tensor)
    (past_key_value : option (Tensor * Tensor)) : Result Projections :=
  mixed_query_layer ← lora_query self hidden_states;
  kvm ← match encoder_hidden_states, past_key_value with
        | Some _, Some past =>
            Ok (fst past, snd past, encoder_attention_mask)
        | Some encoder_hidden_states, None =>
            k ← key self encoder_hidden_states;
            key_layer ← transpose_for_scores self k;
            v ← lora_value self encoder_hidden_states;
            value_layer ← transpose_for_scores self v;
            Ok (key_layer, value_layer, encoder_attention_mask)
        | None, Some past =>
            k ← key self hidden_states;
            key_layer ← transpose_for_scores self k;
            v ← lora_value self hidden_states;
            value_layer ← transpose_for_scores self v;
            key_layer ← torch_cat (fst past) key_layer 2;
            value_layer ← torch_cat (snd past) value_layer 2;
            Ok (key_layer, value_layer, attention_mask)
        | None, None =>
            k ← key self hidden_states;
            key_layer ← transpose_for_scores self k;
            v ← lora_value self hidden_states;
            value_layer ← transpose_for_scores self v;
            Ok (key_layer, value_layer, attention_mask)
        end;
  query_layer ← transpose_for_scores self mixed_query_layer;
  a ← get_attrs self;
  Ok (mkProjections query_layer (fst (fst kvm)) (snd (fst kvm)) (snd kvm)
        (bool_decide (is_Some past_key_value))
        (if is_decoder a then Some (fst (fst kvm), snd (fst kvm))
         else past_key_value)).

(** [forward], lines 115 to 127: the positions on the left (one per query
    position, or the single position [key_length - 1] when a cache came in),
    the positions on the right, and the table of their differences. *)
Definition position_ids_l (use_cache : bool) (query_length key_length : nat) : list Z :=
  if use_cache then [(Z.of_nat key_length - 1)%Z]
  else map Z.of_nat (seq 0 query_length).

Definition position_ids_r (key_length : nat) : list Z :=
  map Z.of_nat (seq 0 key_length).

Definition distance (ids_l ids_r : list Z) : list (list Z) :=
  map (fun l => map (fun r => (l - r)%Z) ids_r) ids_l.

(** [embedding(indices)] for the weight of a [nn.Embedding]: the rows of the
    table at the indices.  [None] stands for the [IndexError] that torch
    raises when an index is not a row of the table. *)
Definition Embedding_forward (weight : Tensor) (indices : list (list Z))
  : option (list (list (list Z))) :=
  match shape weight with
  | [n; dim] =>
      if forallb (forallb (fun i => (0 <=? i)%Z && (i <? Z.of_nat n)%Z)) indices
      then Some (map (map (fun i => slice (data weight) (Z.to_nat i * dim) dim)) indices)
      else None
  | _ => None
  end.

(** [forward], lines 115 to 131: the positional embedding that a module with
    relative position embeddings looks up for [query_length] and
    [key_length]. *)
Definition positional_embedding (self : Module) (use_cache : bool)
    (query_length key_length : nat) : Result (option (list (list (list Z)))) :=
  a ← get_attrs self;
  max_positions ← match max_position_embeddings a with
                  | Some n => Ok n
                  | None => Raise (AttributeError "max_position_embeddings")
                  end;
  distance_embedding ← get_module self "distance_embedding";
  weight ← get_parameter distance_embedding "weight";
  let d := distance (position_ids_l use_cache query_length key_length)
                    (position_ids_r key_length) in
  Ok (Embedding_forward weight
        (map (map (fun z => (z + Z.of_nat max_positions - 1)%Z)) d)).

(** [forward], lines 172 to 174: the context of shape (batch, heads,
    sequence, head size) is permuted to (batch, sequence, heads, head size)
    and viewed as (batch, sequence, all head size). *)
Definition merge_heads (self : Module) (context_layer : Tensor) : Result Tensor :=
  a ← get_attrs self;
  match shape context_layer with
  | [b; H; s; hs] =>
      if Nat.eqb (numel [b; s; H; hs]) (numel [b; s; all_head_size a]) then
        Ok (mkTensor [b; s; all_head_size a]
              (flat_map (fun bi =>
                 flat_map (fun si =>
                   flat_map (fun h =>
                     map (fun j => entry (data context_layer)
                                         (((bi * H + h) * s + si) * hs + j))
                         (seq 0 hs))
                     (seq 0 H))
                   (seq 0 s))
                 (seq 0 b)))
      else Raise (RuntimeError "view: shape is invalid for input size")
  | _ => Raise (RuntimeError "permute: number of dimensions does not match")
  end.

(** *** The merged weight

    What the LoRA paths are compared with: the weight of the projection
    [proj] with the product of its LoRA pair added, W + B.A, and the one
    linear layer that has this weight and the bias of the projection. *)
Definition merged_weight (self : Module) (proj Bname Aname : string) : Result Tensor :=
  layer ← get_module self proj;
  W ← get_parameter layer "weight";
  B ← get_parameter self Bname;
  A ← get_parameter self Aname;
  BA ← torch_matmul B A;
  torch_add W BA.

Definition merged_linear (self : Module) (proj Bname Aname : string) (x : Tensor)
  : Result Tensor :=
  merged ← merged_weight self proj Bname Aname;
  layer ← get_module self proj;
  b ← get_parameter layer "bias";
  F_linear x merged (Some b).

(** *** Layouts

    The layout that the constructors give a module, with any tensors of the
    right shapes in it: what a module looks like after its weights were
    loaded or trained. *)

(** A [nn.Linear] of [inn] inputs and [out] outputs. *)
Definition is_linear (inn out : nat) (m : Module) : Prop :=
  exists w b : Param,
    m = mkModule (OtherClass "Linear") None [("weight", w); ("bias", b)] [] [] /\
    shape (p_data w) = [out; inn] /\ shape (p_data b) = [out] /\
    well_formed (p_data w) /\ well_formed (p_data b).

(** A [nn.Embedding] of [n] rows of width [dim]. *)
Definition is_embedding (n dim : nat) (m : Module) : Prop :=
  exists w : Param,
    m = mkModule (OtherClass "Embedding") None [("weight", w)] [] [] /\
    shape (p_data w) = [n; dim] /\ well_formed (p_data w).

(** The position embedding type that [RobertaSelfAttention.__init__] takes
    for its argument [p]. *)
Definition effective_position_embedding_type (config : Config) (p : option string)
  : string :=
  match p with
  | Some s => if String.eqb s "" then cfg_position_embedding_type config else s
  | None => cfg_position_embedding_type config
  end.

(** The plain attributes of an attention module of [config] whose position
    embedding type is [pet]. *)
Definition attention_attrs (config : Config) (pet : string) : AttentionAttrs :=
  let heads := cfg_num_attention_heads config in
  let head_size := cfg_hidden_size config / heads in
  mkAttentionAttrs heads head_size (heads * head_size) pet
    (if is_relative pet then Some (cfg_max_position_embeddings config) else None)
    (cfg_is_decoder config).

(** The children of an attention module of [config] and [pet]. *)
Definition is_attention_children (config : Config) (pet : string)
    (children : list (string * Module)) : Prop :=
  let hidden := cfg_hidden_size config in
  let heads := cfg_num_attention_heads config in
  heads <> 0 /\ hidden mod heads = 0 /\
  exists q k v rest,
    children = [("query", q); ("key", k); ("value", v); ("dropout", nn_Dropout)] ++ rest /\
    is_linear hidden (heads * (hidden / heads)) q /\
    is_linear hidden (heads * (hidden / heads)) k /\
    is_linear hidden (heads * (hidden / heads)) v /\
    if is_relative pet
    then cfg_max_position_embeddings config <> 0 /\
         exists e, rest = [("distance_embedding", e)] /\
                   is_embedding (2 * cfg_max_position_embeddings config - 1)
                                (hidden / heads) e
    else rest = [].

(** An unadapted attention module of [config] and [pet]. *)
Definition is_base_attention (config : Config) (pet : string) (m : Module) : Prop :=
  exists children,
    m = mkModule RobertaSelfAttention (Some (attention_attrs config pet)) [] [] children /\
    is_attention_children config pet children.

(** An adapted attention module of [config], [pet] and rank [r]: the four
    LoRA matrices, B of shape (d, r) and A of shape (r, d), before the
    children of the base class. *)
Definition is_lora_attention (config : Config) (pet : string) (r : nat) (m : Module)
  : Prop :=
  let d := cfg_num_attention_heads config
           * (cfg_hidden_size config / cfg_num_attention_heads config) in
  exists (qB qA vB vA : Param) children,
    m = mkModule LoraRobertaSelfAttention (Some (attention_attrs config pet))
          [("lora_query_matrix_B", qB); ("lora_query_matrix_A", qA);
           ("lora_value_matrix_B", vB); ("lora_value_matrix_A", vA)] [] children /\
    is_attention_children config pet children /\
    shape (p_data qB) = [d; r] /\ shape (p_data qA) = [r; d] /\
    shape (p_data vB) = [d; r] /\ shape (p_data vA) = [r; d] /\
    well_formed (p_data qB) /\ well_formed (p_data qA) /\
    well_formed (p_data vB) /\ well_formed (p_data vA).

(** ** [class LoraWrapperRobertaHelper] *)

(** The object: the attributes that [__init__] and
    [replace_multihead_attention] set.  [nr_replaced_modules] is written by
    [replace_multihead_attention] before anything reads it. *)
Record LoraWrapperRobertaHelper : Type := mkWrapper {
  model : Module;
  model_config : Config;
  lora_rank : Z;
  train_biases : bool;
  train_embeddings : bool;
  train_layer_norms : bool;
  nr_replaced_modules : nat }.

(** The arguments of [__init__] and their defaults (lines 188 to 192). *)
Record InitArgs : Type := mkInitArgs {
  arg_model_id : string;
  arg_lora_rank : Z;
  arg_train_biases : bool;
  arg_train_embedding : bool;
  arg_train_layer_norms : bool }.

Definition default_args : InitArgs := mkInitArgs "roberta-base" 8 true false true.

(** What the class body defines, and what an instance carries: attribute
    lookup on an instance finds these names and no others. *)
Definition LoraWrapperRobertaHelper_methods : list string :=
  ["__init__"; "replace_multihead_attention";
   "replace_multihead_attention_recursion";
   "freeze_parameters_except_lora_and_bias"].

Definition LoraWrapperRobertaHelper_fields : list string :=
  ["model"; "model_config"; "lora_rank"; "train_biases"; "train_embeddings";
   "train_layer_norms"; "nr_replaced_modules"].

Definition has_attribute (name : string) : Result unit :=
  if existsb (String.eqb name)
       (LoraWrapperRobertaHelper_fields ++ LoraWrapperRobertaHelper_methods)
  then Ok tt else Raise (AttributeError name).

(** The values a persisted state maps names to, and the forms of the
    argument the loading code tells apart. *)
Inductive PyValue : Type :=
| PyTensor (t : Tensor)
| PyString (s : string)
| PyInt (z : Z).

Inductive PyArg : Type :=
| ArgNone
| ArgStr (s : string)
| ArgPath (p : string)
| ArgDict (d : list (string * PyValue)).

(** A local variable of a running function: bound to a value or not yet. *)
Inductive Local (A : Type) : Type :=
| Unbound
| Bound (a : A).
Arguments Unbound {A}.
Arguments Bound {A} a.

(** The collaborators outside the file: the model hub behind
    [RobertaModel.from_pretrained] and the files behind [torch.load]. *)
Record Env : Type := mkEnv {
  from_pretrained : string -> Result (Module * Config);
  torch_load : string -> Result (list (string * PyValue)) }.

(** *** Module replacement *)

(** [set(state_dict.keys())], and the same set without the keys that start
    with "lora_" (lines 282 to 285). *)
Definition state_keys (m : Module) : gset string :=
  list_to_set (map fst (state_dict m)).

Definition state_keys_without_lora (m : Module) : gset string :=
  list_to_set (filter (fun k => negb (startswith "lora_" k)) (map fst (state_dict m))).

Section Replacement.

Variable self_lora_rank : Z.
Variable self_model_config : Config.

(** Lines 267 to 288 for one attention child: the new layer, the state of
    the old one loaded into it, and the comparison of the key sets. *)
Definition replace_attention (module : Module) (g : Rng) : Result Module * Rng :=
  let '(new_layer, g1) :=
    LoraRobertaSelfAttention_init self_lora_rank self_model_config g in
  (new_layer ← new_layer;
   let state_dict_old := state_dict module in
   new_layer ← load_state_dict new_layer state_dict_old;
   let keys_old := state_keys module in
   let keys_new := state_keys_without_lora new_layer in
   if bool_decide (keys_old = keys_new) then Ok new_layer
   else Raise (AssertionError keys_old keys_new),
   g1).

Variable recurse : nat -> Rng -> Module -> nat * Rng * Module * option Exn.

(** The loop of lines 262 to 295 over the children of one module: the
    counter and the generator go in and come out, the children come out
    with the replacements made so far, and an exception stops the loop. *)
Fixpoint replace_children (nr : nat) (g : Rng) (children : list (string * Module))
  : nat * Rng * list (string * Module) * option Exn :=
  match children with
  | [] => (nr, g, [], None)
  | (name, module) :: rest =>
      if isinstance_RobertaSelfAttention (m_class module) then
        match replace_attention module g with
        | (Ok new_layer, g1) =>
            let '(nr2, g2, rest', e) := replace_children (S nr) g1 rest in
            (nr2, g2, (name, new_layer) :: rest', e)
        | (Raise e, g1) => (S nr, g1, (name, module) :: rest, Some e)
        end
      else
        match recurse nr g module with
        | (nr1, g1, module', None) =>
            let '(nr2, g2, rest', e) := replace_children nr1 g1 rest in
            (nr2, g2, (name, module') :: rest', e)
        | (nr1, g1, module', Some e) => (nr1, g1, (name, module') :: rest, Some e)
        end
  end.

End Replacement.

(** [replace_multihead_attention_recursion(self, model)]: [nr] is
    [self.nr_replaced_modules]. *)
Fixpoint replace_multihead_attention_recursion (self_lora_rank : Z)
    (self_model_config : Config) (nr : nat) (g : Rng) (model : Module) {struct model}
  : nat * Rng * Module * option Exn :=
  match model with
  | mkModule cls attrs params buffers children =>
      let '(nr', g', children', e) :=
        replace_children self_lora_rank self_model_config
          (replace_multihead_attention_recursion self_lora_rank self_model_config)
          nr g children in
      (nr', g', mkModule cls attrs params buffers children', e)
  end.

(** The attention modules that the traversal meets, in the order it meets
    them: depth first, children left to right, never below an attention
    module. *)
Fixpoint targets (model : Module) : list Module :=
  match model with
  | mkModule _ _ _ _ children =>
      flat_map (fun nc => if isinstance_RobertaSelfAttention (m_class (snd nc))
                          then [snd nc] else targets (snd nc))
               children
  end.

(** The replacements of lines 267 to 288 made on a list of modules one after
    the other, up to the first that raises. *)
Fixpoint replace_targets (self_lora_rank : Z) (self_model_config : Config)
    (nr : nat) (g : Rng) (ts : list Module) : nat * Rng * list Module * option Exn :=
  match ts with
  | [] => (nr, g, [], None)
  | t :: ts' =>
      match replace_attention self_lora_rank self_model_config t g with
      | (Ok new_layer, g1) =>
          let '(nr2, g2, ts2, e) :=
            replace_targets self_lora_rank self_model_config (S nr) g1 ts' in
          (nr2, g2, new_layer :: ts2, e)
      | (Raise e, g1) => (S nr, g1, t :: ts', Some e)
      end
  end.

(** How many modules strictly below [model], at any depth, are of class
    [RobertaSelfAttention] itself, that is, unadapted. *)
Fixpoint count_unadapted (model : Module) : nat :=
  match model with
  | mkModule _ _ _ _ children =>
      list_sum (map (fun nc => (match m_class (snd nc) with
                                | RobertaSelfAttention => 1
                                | _ => 0
                                end) + count_unadapted (snd nc))
                    children)
  end.

(** [new] has, under every key of [old], the tensor that [old] has there. *)
Definition carries (old new : Module) : Prop :=
  forall key t, assoc key (state_dict old) = Some t ->
                assoc key (state_dict new) = Some t.

(** [replace_multihead_attention(self)]: the counter starts at 0.  The line
    it prints is not modelled. *)
Definition replace_multihead_attention (self : LoraWrapperRobertaHelper) (g : Rng)
  : LoraWrapperRobertaHelper * option Exn * Rng :=
  let '(nr, g', model', e) :=
    replace_multihead_attention_recursion (lora_rank self) (model_config self)
      0 g (model self) in
  (mkWrapper model' (model_config self) (lora_rank self) (train_biases self)
             (train_embeddings self) (train_layer_norms self) nr, e, g').

(** *** Freezing policy *)

(** The condition of lines 304 to 310 on a parameter name. *)
Definition trainable (self : LoraWrapperRobertaHelper) (name : string) : bool :=
  contains "lora_" name
  || contains "finetune_head_" name
  || (train_biases self && contains "bias" name)
  || (train_embeddings self && contains "embeddings" name)
  || (train_layer_norms self && contains "LayerNorm" name).

(** The loop of lines 303 to 313: every parameter, met under its qualified
    name, gets [requires_grad] from [rule]. *)
Fixpoint set_requires_grad_from (rule : string -> bool) (prefix : string) (m : Module)
  : Module :=
  match m with
  | mkModule cls attrs params buffers children =>
      mkModule cls attrs
        (map (fun np => (fst np, mkParam (p_data (snd np)) (rule (prefix +:+ fst np))))
             params)
        buffers
        (map (fun nc => (fst nc,
                         set_requires_grad_from rule (prefix +:+ fst nc +:+ ".") (snd nc)))
             children)
  end.

Definition freeze_loop (self : LoraWrapperRobertaHelper) : LoraWrapperRobertaHelper :=
  mkWrapper (set_requires_grad_from (trainable self) "" (model self))
            (model_config self) (lora_rank self) (train_biases self)
            (train_embeddings self) (train_layer_norms self)
            (nr_replaced_modules self).

(** A module with every [requires_grad] flag put to one value: what is left
    of a module when the flags are not looked at. *)
Definition forget_grad (m : Module) : Module :=
  set_requires_grad_from (fun _ => true) "" m.

(** [d[k]] on a persisted state. *)
Definition getitem (d : list (string * PyValue)) (k : string) : Result PyValue :=
  match assoc k d with
  | Some v => Ok v
  | None => Raise (KeyError k)
  end.

Section Tail.

Variable env : Env.

(** [LoraWrapperRobertaHelper(model_id=.., lora_rank=..)] as line 345 calls it *)
Variable construct : PyValue -> PyValue -> Rng -> Result LoraWrapperRobertaHelper * Rng.

(** Lines 331 to 353, which follow the loop inside
    [freeze_parameters_except_lora_and_bias]: [lora_parameters] is a local
    variable of that function (line 334 assigns it). *)
Definition load_statements (lora_parameters : Local PyArg) (g : Rng)
  : Result LoraWrapperRobertaHelper * Rng :=
  match lora_parameters with
  | Unbound => (Raise (UnboundLocalError "lora_parameters"), g)
  | Bound lora_parameters =>
      let state_dict :=
        match lora_parameters with
        | ArgNone => Raise (ValueError "No filepath or state dict provided")
        | ArgStr s => torch_load env s
        | ArgPath p => torch_load env p
        | ArgDict d => Ok d
        end in
      match (state_dict ← state_dict;
             model_id ← getitem state_dict "model_id";
             lora_rank ← getitem state_dict "lora_rank";
             Ok (model_id, lora_rank)) with
      | Raise e => (Raise e, g)
      | Ok (model_id, lora_rank) =>
          match construct model_id lora_rank g with
          | (Raise e, g1) => (Raise e, g1)
          | (Ok instance, g1) =>
              (_ ← has_attribute "load_state_dict"; Ok instance, g1)
          end
      end
  end.

(** [freeze_parameters_except_lora_and_bias(self)]: the loop, then the
    statements above with [lora_parameters] never bound.  The object after
    the loop is returned next to the outcome, since the loop has already
    changed it when the exception leaves the function. *)
Definition freeze_parameters_except_lora_and_bias (self : LoraWrapperRobertaHelper)
    (g : Rng) : LoraWrapperRobertaHelper * Result LoraWrapperRobertaHelper * Rng :=
  let self := freeze_loop self in
  let '(r, g1) := load_statements Unbound g in
  (self, r, g1).

End Tail.

(** Lines 220 to 229 of [__init__]: the attributes of the new object. *)
Definition new_wrapper (args : InitArgs) (m : Module) (config : Config)
  : LoraWrapperRobertaHelper :=
  mkWrapper m config (arg_lora_rank args) (arg_train_biases args)
            (arg_train_embedding args) (arg_train_layer_norms args) 0.

(** The call of line 345: [model_id] and [lora_rank] by keyword, the three
    flags at their defaults.  [init] is the constructor it calls. *)
Definition keyword_construct
    (init : InitArgs -> Rng -> Result LoraWrapperRobertaHelper * Rng)
    (model_id lora_rank : PyValue) (g : Rng) : Result LoraWrapperRobertaHelper * Rng :=
  match model_id, lora_rank with
  | PyString id, PyInt r =>
      init (mkInitArgs id r (arg_train_biases default_args)
              (arg_train_embedding default_args)
              (arg_train_layer_norms default_args)) g
  | _, _ => (Raise (TypeError "model_id or lora_rank of the wrong type"), g)
  end.

(** [LoraWrapperRobertaHelper.__init__].  The text of the class is
    recursive (line 345 constructs an instance inside a method that the
    constructor calls), so the model takes fuel. *)
Fixpoint LoraWrapperRobertaHelper_init (fuel : nat) (env : Env) (args : InitArgs)
    (g : Rng) {struct fuel} : Result LoraWrapperRobertaHelper * Rng :=
  match fuel with
  | O => (Raise OutOfFuel, g)
  | S fuel' =>
      match from_pretrained env (arg_model_id args) with
      | Raise e => (Raise e, g)
      | Ok (m, config) =>
          let self := new_wrapper args m config in
          match replace_multihead_attention self g with
          | (_, Some e, g1) => (Raise e, g1)
          | (self, None, g1) =>
              match freeze_parameters_except_lora_and_bias env
                      (keyword_construct (LoraWrapperRobertaHelper_init fuel' env))
                      self g1 with
              | (_, Raise e, g2) => (Raise e, g2)
              | (self, Ok _, g2) => (Ok self, g2)
              end
          end
      end
  end.

(** ** Small concrete inputs

    A configuration of hidden size 4 with 2 heads, a generator, and the
    attention module that the constructor of the source builds from them. *)

Definition example_config : Config := mkConfig 4 2 "absolute" 16 false.

Definition example_rng : Rng := fun i => (Z.of_nat i + 1)%Z.

Definition example_attention : Module :=
  match fst (LoraRobertaSelfAttention_init 2 example_config example_rng) with
  | Ok m => m
  | Raise _ => nn_Dropout
  end.

(** [nn.LayerNorm(n)]: a weight of ones and a bias of zeros. *)
Definition nn_LayerNorm (n : nat) : Module :=
  mkModule (OtherClass "LayerNorm") None
    [("weight", nn_Parameter (mkTensor [n] (repeat 1%Z n)));
     ("bias", nn_Parameter (torch_zeros [n]))] [] [].

Definition container (cls : string) (children : list (string * Module)) : Module :=
  mkModule (OtherClass cls) None [] [] children.

(** The unadapted attention module of [example_config]. *)
Definition example_base_attention : Module :=
  match fst (RobertaSelfAttention_init RobertaSelfAttention example_config None
               example_rng) with
  | Ok m => m
  | Raise _ => nn_Dropout
  end.

(** A one-layer encoder with the module and parameter names of RoBERTa. *)
Definition example_model : Module :=
  container "RobertaModel"
    [("embeddings",
      container "RobertaEmbeddings"
        [("word_embeddings", fst (nn_Embedding 3 4 example_rng));
         ("LayerNorm", nn_LayerNorm 4)]);
     ("encoder",
      container "RobertaEncoder"
        [("layer",
          container "ModuleList"
            [("0",
              container "RobertaLayer"
                [("attention",
                  container "RobertaAttention"
                    [("self", example_base_attention);
                     ("output",
                      container "RobertaSelfOutput"
                        [("dense", fst (nn_Linear 4 4 example_rng));
                         ("LayerNorm", nn_LayerNorm 4)])])])])]);
     ("pooler",
      container "RobertaPooler" [("dense", fst (nn_Linear 4 4 example_rng))])].

(** A hub that knows one model, and no files. *)
Definition example_env : Env :=
  mkEnv (fun id => if String.eqb id "roberta-base"
                   then Ok (example_model, example_config)
                   else Raise (OSError id))
        (fun path => Raise (FileNotFoundError path)).

(** The object that [__init__] holds for the default arguments and
    [example_model], and a constructor that is never reached. *)
Definition example_wrapper : LoraWrapperRobertaHelper :=
  new_wrapper default_args example_model example_config.

Definition no_construct (model_id lora_rank : PyValue) (g : Rng)
  : Result LoraWrapperRobertaHelper * Rng := (Raise OutOfFuel, g).

(** The bias of the pooler of [example_model] as the freezing loop leaves it. *)
Definition example_bias : Param :=
  match assoc "pooler.dense.bias" (named_parameters (model (freeze_loop example_wrapper))) with
  | Some p => p
  | None => nn_Parameter (torch_zeros [])
  end.

(** One decoding step on [example_attention]: the hidden state of one new
    token, a cache of one earlier token, and what [forward] makes of them. *)
Definition example_hidden : Tensor := mkTensor [1; 1; 4] [1; 2; 3; 4]%Z.
Definition example_past_key : Tensor := mkTensor [1; 2; 1; 2] [5; 6; 7; 8]%Z.
Definition example_past_value : Tensor := mkTensor [1; 2; 1; 2] [9; 10; 11; 12]%Z.

Definition example_projections : Projections :=
  match forward_projections example_attention example_hidden None None None
          (Some (example_past_key, example_past_value)) with
  | Ok out => out
  | Raise _ =>
      mkProjections example_hidden example_hidden example_hidden None false None
  end.

(** The replacement run on [example_model] with the default rank. *)
Definition example_replaced : nat * Rng * Module * option Exn :=
  replace_multihead_attention_recursion 8 example_config 0 example_rng example_model.

(** A decoder layer with relative position embeddings.  As in transformers,
    its cross-attention block is built with absolute position embeddings,
    whatever the configuration says, so it has no distance embedding. *)
Definition example_decoder_config : Config := mkConfig 4 2 "relative_key" 3 true.

Definition example_decoder_self : Module :=
  match fst (RobertaSelfAttention_init RobertaSelfAttention example_decoder_config None
               example_rng) with
  | Ok m => m
  | Raise _ => nn_Dropout
  end.

Definition example_decoder_cross : Module :=
  match fst (RobertaSelfAttention_init RobertaSelfAttention example_decoder_config
               (Some "absolute") example_rng) with
  | Ok m => m
  | Raise _ => nn_Dropout
  end.

Definition example_decoder_model : Module :=
  container "RobertaModel"
    [("encoder",
      container "RobertaEncoder"
        [("layer",
          container "ModuleList"
            [("0",
              container "RobertaLayer"
                [("attention",
                  container "RobertaAttention" [("self", example_decoder_self)]);
                 ("crossattention",
                  container "RobertaAttention" [("self", example_decoder_cross)])])])])].

Definition example_decoder_env : Env :=
  mkEnv (fun id => if String.eqb id "roberta-base"
                   then Ok (example_decoder_model, example_decoder_config)
                   else Raise (OSError id))
        (fun path => Raise (FileNotFoundError path)).

(** The replacement of the self-attention block of the decoder layer, and
    the layer that the constructor and [load_state_dict] then make for the
    cross-attention block. *)
Definition example_decoder_first : nat * Rng * list Module * option Exn :=
  replace_targets 8 example_decoder_config 0 example_rng [example_decoder_self].

Definition example_decoder_fresh : Result Module * Rng :=
  LoraRobertaSelfAttention_init 8 example_decoder_config
    (snd (fst (fst example_decoder_first))).

Definition example_decoder_loaded : Module :=
  match (fresh ← fst example_decoder_fresh;
         load_state_dict fresh (state_dict example_decoder_cross)) with
  | Ok m => m
  | Raise _ => nn_Dropout
  end.

(** A second unadapted attention module, with other weights. *)
Definition example_base_attention_2 : Module :=
  match fst (RobertaSelfAttention_init RobertaSelfAttention example_config None
               (fun i => (Z.of_nat i + 100)%Z)) with
  | Ok m => m
  | Raise _ => nn_Dropout
  end.

(** A tree that holds an adapted attention module before two unadapted
    ones. *)
Definition example_mixed_model : Module :=
  container "Triple"
    [("a", example_attention); ("b", example_base_attention);
     ("c", example_base_attention_2)].

(** [example_attention] after training has moved its B matrices away from
    zero. *)
Definition example_trained_attention : Module :=
  load_from [("lora_query_matrix_B", mkTensor [4; 2] [1; 0; 0; 1; 1; 1; 2; 0]%Z);
             ("lora_value_matrix_B", mkTensor [4; 2] [0; 1; 1; 0; 0; 2; 1; 1]%Z)]
            "" example_attention.

(** The adapted module of rank 0, and the adapted module of the
    configuration with relative position embeddings. *)
Definition example_rank_zero_attention : Module :=
  match fst (LoraRobertaSelfAttention_init 0 example_config example_rng) with
  | Ok m => m
  | Raise _ => nn_Dropout
  end.

Definition example_relative_attention : Module :=
  match fst (LoraRobertaSelfAttention_init 2 example_decoder_config example_rng) with
  | Ok m => m
  | Raise _ => nn_Dropout
  end.

(** The replacement run on the decoder layer, which stops at the
    cross-attention block, and the exception it stops with. *)
Definition example_decoder_replaced : nat * Rng * Module * option Exn :=
  replace_multihead_attention_recursion 8 example_decoder_config 0 example_rng
    example_decoder_model.

Definition example_decoder_exception : Exn :=
  match snd example_decoder_replaced with
  | Some e => e
  | None => OutOfFuel
  end.

(** The query weight of [example_base_attention], the pooler of
    [example_model], and the hidden states of two tokens. *)
Definition example_query_weight : Tensor :=
  match (q ← get_module example_base_attention "query"; get_parameter q "weight") with
  | Ok t => t
  | Raise _ => torch_zeros []
  end.

Definition example_pooler : Module :=
  container "RobertaPooler" [("dense", fst (nn_Linear 4 4 example_rng))].

Definition example_two_tokens : Tensor :=
  mkTensor [1; 2; 4] [1; 2; 3; 4; 5; 6; 7; 8]%Z.

(** * Properties *)

(** ** Strings *)

Lemma startswith_spec (p s : string) :
  startswith p s = true <-> exists suf, s = p +:+ suf.
Proof.
  revert s. induction p as [|a p IH]; intros s; simpl.
  - split; [intros _; exists s; reflexivity | reflexivity].
  - destruct s as [|b s].
    + split; [discriminate | intros [suf H]; discriminate].
    + rewrite andb_true_iff, IH. split.
      * intros [Hab [suf ->]]. apply Ascii.eqb_eq in Hab. subst b.
        exists suf. reflexivity.
      * intros [suf H]. injection H as -> ->. split.
        -- apply Ascii.eqb_refl.
        -- exists suf. reflexivity.
Qed.

Lemma contains_spec (p s : string) : contains p s = true <-> Occurs p s.
Proof.
  unfold Occurs. induction s as [|b s IH].
  - simpl. rewrite orb_false_r, startswith_spec. split.
    + intros [suf H]. exists "", suf. exact H.
    + intros [pre [suf H]]. destruct pre as [|c pre]; [|discriminate].
      exists suf. exact H.
  - cbn [contains]. rewrite orb_true_iff, startswith_spec, IH. split.
    + intros [[suf H] | [pre [suf H]]].
      * exists "", suf. exact H.
      * exists (String b pre), suf. simpl. rewrite H. reflexivity.
    + intros [pre [suf H]]. destruct pre as [|c pre].
      * left. exists suf. exact H.
      * right. simpl in H. injection H as _ H. exists pre, suf. exact H.
Qed.

(** ** Tensors *)

Lemma entry_all_zero (l : list Z) (i : nat) :
  Forall (fun z => z = 0%Z) l -> entry l i = 0%Z.
Proof.
  unfold entry. intros H. revert i.
  induction H as [|z l Hz _ IH]; intros [|i]; simpl; auto.
Qed.

Lemma dot_zero_l (k : nat) (f g : nat -> Z) :
  (forall l, f l = 0%Z) -> dot k f g = 0%Z.
Proof.
  intros Hf. unfold dot. induction (seq 0 k) as [|l ls IH]; simpl; [reflexivity|].
  rewrite Hf, IH. reflexivity.
Qed.

Lemma dot_zero_r (k : nat) (f g : nat -> Z) :
  (forall l, g l = 0%Z) -> dot k f g = 0%Z.
Proof.
  intros Hg. unfold dot. induction (seq 0 k) as [|l ls IH]; simpl; [reflexivity|].
  rewrite Hg, IH. lia.
Qed.

Lemma flat_map_length_const {A B : Type} (f : A -> list B) (l : list A) (m : nat) :
  (forall a, length (f a) = m) -> length (flat_map f l) = length l * m.
Proof.
  intros Hf. induction l as [|a l IH]; simpl; [reflexivity|].
  rewrite length_app, Hf, IH. reflexivity.
Qed.

Lemma flat_map_Forall {A B : Type} (P : B -> Prop) (f : A -> list B) (l : list A) :
  (forall a, Forall P (f a)) -> Forall P (flat_map f l).
Proof.
  intros Hf. induction l as [|a l IH]; simpl; [constructor|].
  apply Forall_app. split; [apply Hf | exact IH].
Qed.

Lemma zip_with_add_zero (l z : list Z) :
  Forall (fun x => x = 0%Z) z -> length l <= length z -> zip_with Z.add l z = l.
Proof.
  intros Hz. revert l. induction Hz as [|x z Hx _ IH]; intros [|a l] Hlen; simpl in *;
    try reflexivity; try lia.
  subst x. rewrite Z.add_0_r, IH; [reflexivity | lia].
Qed.

Lemma numel_app (a b : list nat) : numel (a ++ b) = numel a * numel b.
Proof.
  unfold numel. induction a as [|n a IH]; simpl; [lia|]. rewrite IH. lia.
Qed.

Lemma torch_zeros_all_zero (sh : list nat) : all_zero (torch_zeros sh).
Proof.
  unfold all_zero, torch_zeros. simpl.
  induction (numel sh); simpl; constructor; auto.
Qed.

Lemma torch_randn_shape (sh : list nat) (g : Rng) : shape (fst (torch_randn sh g)) = sh.
Proof. reflexivity. Qed.

Lemma torch_randn_well_formed (sh : list nat) (g : Rng) :
  well_formed (fst (torch_randn sh g)).
Proof. unfold well_formed. simpl. rewrite length_map, length_seq. reflexivity. Qed.

(** A product with an all-zero left factor is an all-zero matrix. *)
Lemma torch_matmul_zero_l (B A W : Tensor) :
  all_zero B -> torch_matmul B A = Ok W ->
  all_zero W /\ exists m k n, shape B = [m; k] /\ shape A = [k; n] /\ shape W = [m; n].
Proof.
  intros HB. unfold torch_matmul.
  destruct (shape B) as [|m [|k [|? ?]]] eqn:EB; try discriminate.
  destruct (shape A) as [|k' [|n [|? ?]]] eqn:EA; try discriminate.
  destruct (Nat.eqb_spec k k') as [<-|]; [|discriminate].
  intros [= <-]. split.
  - unfold all_zero. simpl. apply flat_map_Forall. intros i.
    apply Forall_map, Forall_forall. intros j _. simpl.
    apply dot_zero_l. intros l. apply entry_all_zero. exact HB.
  - exists m, k, n. auto.
Qed.

(** [F.linear] with an all-zero weight and no bias gives zeros, as many as
    the shape of the result says. *)
Lemma F_linear_zero_weight (x W delta : Tensor) :
  all_zero W -> F_linear x W None = Ok delta ->
  all_zero delta /\ well_formed delta.
Proof.
  intros HW. unfold F_linear.
  destruct (split_last_dim (shape x)) as [[lead k]|]; [|discriminate].
  destruct (shape W) as [|out [|k' [|? ?]]]; try discriminate.
  destruct (Nat.eqb k k'); [|discriminate].
  intros [= <-]. split.
  - unfold all_zero. simpl. apply flat_map_Forall. intros i.
    apply Forall_map, Forall_forall. intros j _. simpl.
    apply dot_zero_r. intros l. apply entry_all_zero. exact HW.
  - unfold well_formed. simpl.
    rewrite (flat_map_length_const _ _ out).
    + rewrite length_seq, numel_app. simpl. lia.
    + intros i. rewrite length_map, length_seq. reflexivity.
Qed.

Lemma torch_add_zero (q z : Tensor) :
  shape q = shape z -> well_formed q -> well_formed z -> all_zero z ->
  torch_add q z = Ok q.
Proof.
  intros Hs Hq Hz Hzero. unfold torch_add.
  rewrite bool_decide_eq_true_2 by exact Hs.
  rewrite zip_with_add_zero.
  - destruct q; reflexivity.
  - exact Hzero.
  - unfold well_formed in *. rewrite Hq, Hz, Hs. reflexivity.
Qed.

(** A linear layer plus an all-zero delta of the same weight shape is the
    linear layer, errors included. *)
Lemma linear_plus_zero_delta (x w b W : Tensor) (out inn : nat) :
  shape w = [out; inn] -> shape b = [out] -> well_formed b ->
  shape W = [out; inn] -> all_zero W ->
  (q ← F_linear x w (Some b); delta ← F_linear x W None; torch_add q delta)
  = F_linear x w (Some b).
Proof.
  intros Hw Hb Hbwf HW Hzero.
  destruct (F_linear x w (Some b)) as [q|e] eqn:Eq; [|reflexivity].
  cbn [mbind Result_bind].
  destruct (F_linear x W None) as [delta|e] eqn:Ed.
  - cbn [mbind Result_bind].
    destruct (F_linear_zero_weight _ _ _ Hzero Ed) as [Hdz Hdwf].
    apply torch_add_zero; try assumption.
    + revert Eq Ed. unfold F_linear. rewrite Hw, HW.
      destruct (split_last_dim (shape x)) as [[lead k]|]; [|discriminate].
      destruct (Nat.eqb k inn); [|discriminate].
      rewrite bool_decide_eq_true_2 by exact Hb.
      intros [= <-] [= <-]. reflexivity.
    + revert Eq. unfold F_linear. rewrite Hw.
      destruct (split_last_dim (shape x)) as [[lead k]|]; [|discriminate].
      destruct (Nat.eqb k inn); [|discriminate].
      rewrite bool_decide_eq_true_2 by exact Hb.
      intros [= <-]. unfold well_formed. simpl.
      rewrite (flat_map_length_const _ _ out).
      * rewrite length_seq, numel_app. simpl. lia.
      * intros i. rewrite length_zip_with, length_map, length_seq.
        unfold well_formed in Hbwf. rewrite Hbwf, Hb. simpl. lia.
  - exfalso. revert Eq Ed. unfold F_linear. rewrite Hw, HW.
    destruct (split_last_dim (shape x)) as [[lead k]|]; [|discriminate].
    destruct (Nat.eqb k inn); discriminate.
Qed.

(** ** Zero initialisation *)

Lemma all_head_size_is_hidden (hidden heads : nat) :
  hidden mod heads = 0 -> heads * (hidden / heads) = hidden.
Proof. intros Hm. symmetry. apply Nat.Div0.div_exact. exact Hm. Qed.

(** In the state [zero_delta] the LoRA projection is the base projection,
    for every input, errors included. *)
Lemma zero_delta_projection (self : Module) (Bname Aname proj : string) (x : Tensor) :
  zero_delta self Bname Aname proj ->
  (B ← get_parameter self Bname;
   A ← get_parameter self Aname;
   W ← torch_matmul B A;
   base ← (l ← get_module self proj; Linear_forward l x);
   delta ← F_linear x W None;
   torch_add base delta)
  = (l ← get_module self proj; Linear_forward l x).
Proof.
  unfold zero_delta.
  intros (d & r & A & layer & w & b & HB & HA & HsA & Hl & Hw & Hsw & Hb & Hsb & Hwf).
  rewrite HB, HA, Hl. cbn [mbind Result_bind].
  destruct (torch_matmul (torch_zeros [d; r]) A) as [W|e] eqn:EW.
  - destruct (torch_matmul_zero_l _ _ _ (torch_zeros_all_zero _) EW)
      as [HWz (m & k & n & H1 & H2 & H3)].
    simpl in H1. rewrite HsA in H2. injection H1 as <- <-. injection H2 as <-.
    cbn [mbind Result_bind]. unfold Linear_forward. rewrite Hw, Hb.
    cbn [mbind Result_bind].
    apply (linear_plus_zero_delta x w b W d d); assumption.
  - exfalso. revert EW. unfold torch_matmul. rewrite HsA. simpl.
    rewrite Nat.eqb_refl. discriminate.
Qed.

(** The constructor leaves both LoRA pairs in the state [zero_delta]. *)
Lemma fresh_zero_delta (r : Z) (config : Config) (g : Rng) (self : Module) :
  fst (LoraRobertaSelfAttention_init r config g) = Ok self ->
  zero_delta self "lora_query_matrix_B" "lora_query_matrix_A" "query" /\
  zero_delta self "lora_value_matrix_B" "lora_value_matrix_A" "value".
Proof.
  unfold LoraRobertaSelfAttention_init, RobertaSelfAttention_init.
  destruct (Nat.eqb (cfg_num_attention_heads config) 0); [discriminate|].
  destruct (Nat.eqb_spec (cfg_hidden_size config mod cfg_num_attention_heads config) 0)
    as [Hmod|]; [|discriminate].
  cbn [negb].
  pose proof (all_head_size_is_hidden _ _ Hmod) as Hall.
  set (d := cfg_num_attention_heads config
            * (cfg_hidden_size config / cfg_num_attention_heads config)) in *.
  unfold zero_delta.
  destruct (is_relative (cfg_position_embedding_type config));
    [destruct (Nat.eqb (cfg_max_position_embeddings config) 0); [discriminate|]|];
    cbn -[torch_zeros Nat.mul Nat.div Nat.sub];
    (destruct (r <? 0)%Z; [discriminate|]);
    cbn -[torch_zeros Nat.mul Nat.div Nat.sub];
    intros [= <-]; split;
    exists d, (Z.to_nat r); do 4 eexists;
    (repeat split; try reflexivity).
  all: try (simpl; rewrite Hall; reflexivity).
  all: unfold well_formed; simpl; rewrite length_map, length_seq; reflexivity.
Qed.



(** ** Modules *)

(** Induction on a module with the hypothesis for every child. *)
Lemma Module_ind' (P : Module -> Prop) :
  (forall cls attrs params buffers children,
      Forall (fun nc => P (snd nc)) children ->
      P (mkModule cls attrs params buffers children)) ->
  forall m, P m.
Proof.
  intros H. fix IH 1. intros [cls attrs params buffers children].
  apply H. induction children as [|[n c] cs IHcs]; constructor.
  - apply IH.
  - exact IHcs.
Qed.

(** ** Freezing policy *)

(** The loop keeps every parameter where it is and under its name, and gives
    it the flag its name asks for. *)
Lemma named_parameters_set_requires_grad (rule : string -> bool) (m : Module) :
  forall prefix,
    named_parameters_from prefix (set_requires_grad_from rule prefix m)
    = map (fun np => (fst np, mkParam (p_data (snd np)) (rule (fst np))))
          (named_parameters_from prefix m).
Proof.
  induction m as [cls attrs params buffers children IH] using Module_ind'.
  intros prefix. simpl. rewrite map_app, !map_map. f_equal.
  induction IH as [|[n c] cs Hc _ IHcs]; simpl; [reflexivity|].
  rewrite map_app, Hc, IHcs. reflexivity.
Qed.

(** Running the loop with [rule2] after the loop with [rule1] is running it
    with [rule2]. *)
Lemma set_requires_grad_twice (rule1 rule2 : string -> bool) (m : Module) :
  forall prefix,
    set_requires_grad_from rule2 prefix (set_requires_grad_from rule1 prefix m)
    = set_requires_grad_from rule2 prefix m.
Proof.
  induction m as [cls attrs params buffers children IH] using Module_ind'.
  intros prefix. simpl. rewrite !map_map. simpl. f_equal.
  induction IH as [|[n c] cs Hc _ IHcs]; simpl; [reflexivity|].
  rewrite Hc, IHcs. reflexivity.
Qed.

Lemma trainable_spec (self : LoraWrapperRobertaHelper) (name : string) :
  trainable self name = true <->
  Occurs "lora_" name \/ Occurs "finetune_head_" name \/
  (train_biases self = true /\ Occurs "bias" name) \/
  (train_embeddings self = true /\ Occurs "embeddings" name) \/
  (train_layer_norms self = true /\ Occurs "LayerNorm" name).
Proof.
  unfold trainable. rewrite !orb_true_iff, !andb_true_iff, !contains_spec. tauto.
Qed.

(** The statements after the loop do not touch the object: what
    [freeze_parameters_except_lora_and_bias] leaves is what the loop leaves. *)
Lemma freeze_leaves_loop_result (env : Env)
    (construct : PyValue -> PyValue -> Rng -> Result LoraWrapperRobertaHelper * Rng)
    (self : LoraWrapperRobertaHelper) (g : Rng) :
  fst (fst (freeze_parameters_except_lora_and_bias env construct self g))
  = freeze_loop self.
Proof. reflexivity. Qed.



(** The loop neither adds, nor drops, nor renames a parameter. *)
Lemma freeze_loop_keeps_names (self : LoraWrapperRobertaHelper) :
  map fst (named_parameters (model (freeze_loop self)))
  = map fst (named_parameters (model self)).
Proof.
  unfold freeze_loop, named_parameters. simpl.
  rewrite named_parameters_set_requires_grad, map_map. reflexivity.
Qed.

(** C9. Running [freeze_parameters_except_lora_and_bias] a second time on
    the object the first run left gives the same object, so the same
    trainable or frozen mark on every parameter, and the same outcome; and a
    run changes nothing but the marks: the model with the marks forgotten,
    the configuration, the rank, the three flags and the counter are as they
    were. *)
Theorem freeze_idempotent (env : Env)
    (construct : PyValue -> PyValue -> Rng -> Result LoraWrapperRobertaHelper * Rng)
    (self : LoraWrapperRobertaHelper) (g g' : Rng) :
  let once := freeze_parameters_except_lora_and_bias env construct self g in
  let twice := freeze_parameters_except_lora_and_bias env construct (fst (fst once)) g' in
  fst (fst twice) = fst (fst once) /\
  snd (fst twice) = snd (fst once) /\
  forget_grad (model (fst (fst once))) = forget_grad (model self) /\
  model_config (fst (fst once)) = model_config self /\
  lora_rank (fst (fst once)) = lora_rank self /\
  train_biases (fst (fst once)) = train_biases self /\
  train_embeddings (fst (fst once)) = train_embeddings self /\
  train_layer_norms (fst (fst once)) = train_layer_norms self /\
  nr_replaced_modules (fst (fst once)) = nr_replaced_modules self /\
  snd once = g.
Proof.
  cbv zeta. rewrite !freeze_leaves_loop_result.
  repeat split; try reflexivity.
  - unfold freeze_loop. simpl. f_equal. apply set_requires_grad_twice.
  - unfold forget_grad, freeze_loop. simpl. apply set_requires_grad_twice.
Qed.

(** ** Defaults *)



(** ** Construction and loading *)

(** C7, as the code has it.  The statements that choose between a path, a
    mapping and nothing have no function of their own: they run at the end
    of [freeze_parameters_except_lora_and_bias], where [lora_parameters] is
    an unbound local, so every run of them raises [UnboundLocalError]; no
    argument is accepted and [ValueError] is never reached. *)
Theorem load_statements_unreachable (env : Env)
    (construct : PyValue -> PyValue -> Rng -> Result LoraWrapperRobertaHelper * Rng)
    (self : LoraWrapperRobertaHelper) (g : Rng) :
  snd (fst (freeze_parameters_except_lora_and_bias env construct self g))
  = Raise (UnboundLocalError "lora_parameters").
Proof. reflexivity. Qed.

(** What the same statements do once [lora_parameters] is bound to [None]:
    the refusal that the docstring of lines 315 to 329 belongs to. *)
Lemma load_statements_none (env : Env)
    (construct : PyValue -> PyValue -> Rng -> Result LoraWrapperRobertaHelper * Rng)
    (g : Rng) :
  fst (load_statements env construct (Bound ArgNone) g)
  = Raise (ValueError "No filepath or state dict provided").
Proof. reflexivity. Qed.

(** C2, as the code has it.  When the hub resolves the identifier and module
    replacement goes through, [__init__] still does not return: the freezing
    step ends in [UnboundLocalError]. *)
Theorem init_raises_unbound_local (fuel : nat) (env : Env) (args : InitArgs) (g g1 : Rng)
    (m : Module) (config : Config) (self1 : LoraWrapperRobertaHelper) :
  from_pretrained env (arg_model_id args) = Ok (m, config) ->
  replace_multihead_attention (new_wrapper args m config) g = (self1, None, g1) ->
  fst (LoraWrapperRobertaHelper_init (S fuel) env args g)
  = Raise (UnboundLocalError "lora_parameters").
Proof.
  intros Hload Hreplace. simpl. rewrite Hload, Hreplace. reflexivity.
Qed.

Lemma init_raises_unbound_local_witness :
  fst (LoraWrapperRobertaHelper_init 1 example_env default_args example_rng)
  = Raise (UnboundLocalError "lora_parameters").
Proof.
  apply (init_raises_unbound_local 0 example_env default_args example_rng
           (snd (replace_multihead_attention example_wrapper example_rng))
           example_model example_config
           (fst (fst (replace_multihead_attention example_wrapper example_rng)))).
  - reflexivity.
  - vm_compute. reflexivity.
Defined.

(** No call of the constructor returns an object, whatever the hub, the
    arguments and the fuel. *)
Lemma init_never_returns (fuel : nat) (env : Env) (args : InitArgs) (g : Rng) :
  is_ok (fst (LoraWrapperRobertaHelper_init fuel env args g)) = false.
Proof.
  destruct fuel as [|fuel]; [reflexivity|]. simpl.
  destruct (from_pretrained env (arg_model_id args)) as [[m config]|e]; [|reflexivity].
  destruct (replace_multihead_attention (new_wrapper args m config) g)
    as [[self1 [e|]] g1]; reflexivity.
Qed.

(** C8, as the code has it.  The class defines no method that saves, and
    the second step of the round trip cannot be made: the loading
    statements, run with [lora_parameters] bound to any path or mapping,
    never return a wrapper, since the constructor they call never returns
    one. *)
Theorem round_trip_never_returns (fuel : nat) (env : Env) (saved : PyArg) (g : Rng) :
  existsb (contains "save") LoraWrapperRobertaHelper_methods = false /\
  is_ok (fst (load_statements env
                (keyword_construct (LoraWrapperRobertaHelper_init fuel env))
                (Bound saved) g)) = false.
Proof.
  split; [reflexivity|]. unfold load_statements.
  match goal with
  | |- context [match ?r with Ok _ => _ | Raise _ => _ end] =>
      destruct r as [[model_id lora_rank]|e] eqn:E
  end; [|reflexivity].
  unfold keyword_construct.
  destruct model_id; try reflexivity. destruct lora_rank; try reflexivity.
  pose proof (init_never_returns fuel env
                (mkInitArgs s z (arg_train_biases default_args)
                   (arg_train_embedding default_args)
                   (arg_train_layer_norms default_args)) g) as H.
  destruct (LoraWrapperRobertaHelper_init fuel env _ g) as [[w|e] g1];
    [discriminate | reflexivity].
Qed.

(** ** Forward pass *)

Lemma bind_Ok {A B : Type} (r : Result A) (k : A -> Result B) (b : B) :
  (r ≫= k) = Ok b -> exists a, r = Ok a /\ k a = Ok b.
Proof. destruct r as [a|e]; [|discriminate]. intros H. exists a. auto. Qed.

Ltac bind_inv H :=
  repeat match type of H with
         | (_ ≫= _) = Ok _ =>
             let a := fresh "t" in
             let E := fresh "E" in
             apply bind_Ok in H; destruct H as (a & E & H)
         end.

(** [torch.cat] on axis 2 of two tensors of shape (batch, heads, sequence,
    head size): for every batch entry and head, the rows of the first tensor
    and then the rows of the second, so the sequence lengths add up. *)
Lemma torch_cat_sequence_axis (a b : Tensor) (batch heads sa sb w : nat) :
  shape a = [batch; heads; sa; w] -> shape b = [batch; heads; sb; w] ->
  torch_cat a b 2
  = Ok (mkTensor [batch; heads; sa + sb; w]
          (flat_map (fun o => slice (data a) (o * (sa * w)) (sa * w)
                              ++ slice (data b) (o * (sb * w)) (sb * w))
                    (seq 0 (batch * heads)))).
Proof.
  intros Ha Hb. unfold torch_cat. rewrite Ha, Hb. simpl.
  rewrite bool_decide_eq_true_2 by auto.
  rewrite !Nat.mul_1_r. reflexivity.
Qed.

(** What [transpose_for_scores] returns has the per-head layout. *)
Lemma transpose_for_scores_shape (self : Module) (x y : Tensor) :
  transpose_for_scores self x = Ok y ->
  exists a batch s,
    m_attrs self = Some a /\
    shape y = [batch; num_attention_heads a; s; attention_head_size a].
Proof.
  unfold transpose_for_scores, get_attrs.
  destruct (m_attrs self) as [a|]; [|discriminate]. cbn [mbind Result_bind].
  destruct (shape x) as [|batch [|s [|w [|? ?]]]]; try discriminate.
  destruct (Nat.eqb _ _); [|discriminate].
  intros [= <-]. exists a, batch, s. auto.
Qed.



(** ** State dictionaries *)

Lemma assoc_Some_In {A : Type} (k : string) (d : list (string * A)) (v : A) :
  assoc k d = Some v -> In (k, v) d.
Proof.
  induction d as [|[k' v'] d IH]; simpl; [discriminate|].
  destruct (String.eqb_spec k' k) as [->|_].
  - intros [= ->]. left. reflexivity.
  - intros H. right. apply IH, H.
Qed.

Lemma In_key_assoc {A : Type} (k : string) (d : list (string * A)) :
  In k (map fst d) -> exists v, assoc k d = Some v.
Proof.
  induction d as [|[k' v'] d IH]; simpl; [intros []|].
  destruct (String.eqb_spec k' k) as [->|Hne].
  - intros _. eauto.
  - intros [H|H]; [contradiction | exact (IH H)].
Qed.

Lemma assoc_map_values {A B : Type} (f : string -> A -> B) (k : string)
    (d : list (string * A)) :
  assoc k (map (fun kv => (fst kv, f (fst kv) (snd kv))) d) = option_map (f k) (assoc k d).
Proof.
  induction d as [|[k' v'] d IH]; simpl; [reflexivity|].
  destruct (String.eqb_spec k' k) as [->|_]; [reflexivity | exact IH].
Qed.

Lemma state_dict_load_from (sd : list (string * Tensor)) (m : Module) :
  forall prefix,
    state_dict_from prefix (load_from sd prefix m)
    = map (fun kt => (fst kt, load_tensor sd (fst kt) (snd kt)))
          (state_dict_from prefix m).
Proof.
  induction m as [cls attrs params buffers children IH] using Module_ind'.
  intros prefix. simpl. rewrite !map_app, !map_map. simpl. do 2 f_equal.
  induction IH as [|[n c] cs Hc _ IHcs]; simpl; [reflexivity|].
  rewrite map_app, Hc, IHcs. reflexivity.
Qed.

Lemma load_errors_state_dict (sd : list (string * Tensor)) (m : Module) :
  forall prefix,
    load_errors sd prefix m
    = flat_map (fun kt => load_error sd (fst kt) (snd kt)) (state_dict_from prefix m).
Proof.
  induction m as [cls attrs params buffers children IH] using Module_ind'.
  intros prefix. simpl. rewrite !flat_map_app. f_equal; [|f_equal].
  - induction params as [|[n q] ps IHp]; simpl; [reflexivity|]. rewrite IHp. reflexivity.
  - induction buffers as [|[n q] ps IHp]; simpl; [reflexivity|]. rewrite IHp. reflexivity.
  - induction IH as [|[n c] cs Hc _ IHcs]; simpl; [reflexivity|].
    rewrite flat_map_app, Hc, IHcs. reflexivity.
Qed.

Lemma load_from_class (sd : list (string * Tensor)) (prefix : string) (m : Module) :
  m_class (load_from sd prefix m) = m_class m.
Proof. destruct m; reflexivity. Qed.

Lemma load_from_count_unadapted (sd : list (string * Tensor)) (m : Module) :
  forall prefix, count_unadapted (load_from sd prefix m) = count_unadapted m.
Proof.
  induction m as [cls attrs params buffers children IH] using Module_ind'.
  intros prefix. simpl. rewrite map_map. simpl. f_equal.
  induction IH as [|[n c] cs Hc _ IHcs]; simpl; [reflexivity|].
  rewrite load_from_class, Hc, IHcs. reflexivity.
Qed.

(** A successful [load_state_dict(strict=False)] keeps the keys of the module
    and puts under each key that the source has the tensor of the source. *)
Lemma load_state_dict_keys (m m' : Module) (sd : list (string * Tensor)) :
  load_state_dict m sd = Ok m' -> map fst (state_dict m') = map fst (state_dict m).
Proof.
  unfold load_state_dict. destruct (load_errors sd "" m); [|discriminate].
  intros [= <-]. unfold state_dict. rewrite state_dict_load_from, map_map.
  reflexivity.
Qed.

Lemma load_state_dict_copies (m m' : Module) (sd : list (string * Tensor))
    (k : string) (t : Tensor) :
  load_state_dict m sd = Ok m' ->
  In k (map fst (state_dict m)) -> assoc k sd = Some t ->
  assoc k (state_dict m') = Some t.
Proof.
  unfold load_state_dict. destruct (load_errors sd "" m) eqn:Eerr; [|discriminate].
  intros [= <-] Hk Hsd. unfold state_dict in *.
  rewrite state_dict_load_from, assoc_map_values.
  destruct (In_key_assoc _ _ Hk) as [t0 Ht0]. rewrite Ht0. simpl. f_equal.
  rewrite load_errors_state_dict in Eerr.
  apply assoc_Some_In in Ht0.
  assert (Hnone : load_error sd k t0 = []).
  { clear -Eerr Ht0. induction (state_dict_from "" m) as [|[k' t'] l IH]; [destruct Ht0|].
    simpl in Eerr. apply app_eq_nil in Eerr. destruct Eerr as [E1 E2].
    destruct Ht0 as [[= -> ->]|Hin]; [exact E1 | exact (IH E2 Hin)]. }
  unfold load_error in Hnone. unfold load_tensor. rewrite Hsd in *.
  destruct (bool_decide (shape t = shape t0)); [reflexivity | discriminate].
Qed.

(** ** Module replacement *)

(** What the constructor of the adapted module builds is of the adapted
    class and has no attention module below it. *)
Lemma fresh_lora_structure (r : Z) (config : Config) (g : Rng) (m : Module) :
  fst (LoraRobertaSelfAttention_init r config g) = Ok m ->
  m_class m = LoraRobertaSelfAttention /\ count_unadapted m = 0.
Proof.
  unfold LoraRobertaSelfAttention_init, RobertaSelfAttention_init.
  destruct (Nat.eqb (cfg_num_attention_heads config) 0); [discriminate|].
  destruct (negb _); [discriminate|].
  destruct (is_relative _);
    [destruct (Nat.eqb (cfg_max_position_embeddings config) 0); [discriminate|]|];
    cbn -[torch_zeros Nat.mul Nat.div Nat.sub];
    (destruct (r <? 0)%Z; [discriminate|]);
    cbn -[torch_zeros Nat.mul Nat.div Nat.sub];
    intros [= <-]; split; reflexivity.
Qed.

(** One replacement that goes through: the new layer is adapted, has no
    attention module below it, has the keys of the old module once the
    "lora_" keys are left out, and carries the tensors of the old module. *)
Lemma replace_attention_Ok (r : Z) (config : Config) (old new : Module) (g g1 : Rng) :
  replace_attention r config old g = (Ok new, g1) ->
  m_class new = LoraRobertaSelfAttention /\
  count_unadapted new = 0 /\
  state_keys old = state_keys_without_lora new /\
  carries old new.
Proof.
  unfold replace_attention.
  destruct (LoraRobertaSelfAttention_init r config g) as [[fresh|e] g0] eqn:Einit;
    [|discriminate].
  cbn [mbind Result_bind].
  destruct (load_state_dict fresh (state_dict old)) as [loaded|e] eqn:Eload;
    [|discriminate].
  cbn [mbind Result_bind].
  destruct (bool_decide_reflect (state_keys old = state_keys_without_lora loaded))
    as [Hkeys|]; [|discriminate].
  intros [= <- <-].
  assert (Hfresh : fst (LoraRobertaSelfAttention_init r config g) = Ok fresh)
    by (rewrite Einit; reflexivity).
  destruct (fresh_lora_structure _ _ _ _ Hfresh) as [Hcls Hcount].
  assert (Hloaded : loaded = load_from (state_dict old) "" fresh).
  { revert Eload. unfold load_state_dict. destruct (load_errors _ _ _); congruence. }
  repeat split.
  - rewrite Hloaded, load_from_class. exact Hcls.
  - rewrite Hloaded, load_from_count_unadapted. exact Hcount.
  - exact Hkeys.
  - intros k t Hk. apply (load_state_dict_copies fresh loaded (state_dict old)); auto.
    rewrite <- (load_state_dict_keys _ _ _ Eload).
    assert (Hin : k ∈ state_keys old).
    { unfold state_keys. apply elem_of_list_to_set, list_elem_of_In.
      apply in_map_iff. exists (k, t). split; [reflexivity|].
      apply assoc_Some_In, Hk. }
    rewrite Hkeys in Hin. unfold state_keys_without_lora in Hin.
    apply elem_of_list_to_set, list_elem_of_filter in Hin.
    apply list_elem_of_In, Hin.
Qed.

Lemma replace_targets_app (r : Z) (config : Config) (ts1 ts2 : list Module) :
  forall nr g nr1 g1 ts1' e1,
    replace_targets r config nr g ts1 = (nr1, g1, ts1', e1) ->
    replace_targets r config nr g (ts1 ++ ts2)
    = match e1 with
      | None =>
          let '(nr2, g2, ts2', e2) := replace_targets r config nr1 g1 ts2 in
          (nr2, g2, ts1' ++ ts2', e2)
      | Some e => (nr1, g1, ts1' ++ ts2, Some e)
      end.
Proof.
  induction ts1 as [|t ts1 IH]; intros nr g nr1 g1 ts1' e1; simpl.
  - intros [= <- <- <- <-]. destruct (replace_targets r config nr g ts2) as [[[? ?] ?] ?].
    reflexivity.
  - destruct (replace_attention r config t g) as [[new|e] g0].
    + destruct (replace_targets r config (S nr) g0 ts1) as [[[nr' g'] ts'] e'] eqn:E.
      intros [= <- <- <- <-]. rewrite (IH _ _ _ _ _ _ E).
      destruct e'; [reflexivity|].
      destruct (replace_targets r config nr' g' ts2) as [[[? ?] ?] ?]. reflexivity.
    + intros [= <- <- <- <-]. reflexivity.
Qed.

(** The recursion over the tree is the run over its targets: the counter,
    the generator and the exception come out the same, and the targets of
    the tree that comes out are the modules that the run leaves. *)
Lemma replace_recursion_flat (r : Z) (config : Config) (model : Module) :
  forall nr g nr' g' model' e,
    replace_multihead_attention_recursion r config nr g model = (nr', g', model', e) ->
    replace_targets r config nr g (targets model) = (nr', g', targets model', e) /\
    m_class model' = m_class model.
Proof.
  induction model as [cls attrs params buffers children IH] using Module_ind'.
  intros nr g nr' g' model' e. simpl.
  destruct (replace_children r config (replace_multihead_attention_recursion r config)
              nr g children) as [[[nr2 g2] children'] e2] eqn:E.
  intros [= <- <- <- <-]. split; [|reflexivity]. simpl.
  revert nr g nr2 g2 children' e2 E.
  induction IH as [|[name module] rest Hmodule _ IHrest];
    intros nr g nr2 g2 children' e2; simpl.
  - intros [= <- <- <- <-]. reflexivity.
  - destruct (isinstance_RobertaSelfAttention (m_class module)) eqn:Einst.
    + destruct (replace_attention r config module g) as [[new|e] g1] eqn:Enew.
      * destruct (replace_children r config _ (S nr) g1 rest)
          as [[[nr3 g3] rest'] e3] eqn:Erest.
        intros [= <- <- <- <-]. simpl. rewrite Enew.
        rewrite (IHrest _ _ _ _ _ _ Erest).
        destruct (replace_attention_Ok _ _ _ _ _ _ Enew) as [-> _]. reflexivity.
      * intros [= <- <- <- <-]. simpl. rewrite Enew, Einst. reflexivity.
    + simpl in Hmodule.
      destruct (replace_multihead_attention_recursion r config nr g module)
        as [[[nr1 g1] module'] e1] eqn:Emodule.
      destruct (Hmodule _ _ _ _ _ _ Emodule) as [Hflat Hcls].
      destruct e1 as [e1|].
      * intros [= <- <- <- <-]. simpl. rewrite Hcls, Einst.
        rewrite (replace_targets_app _ _ _ _ _ _ _ _ _ _ Hflat). reflexivity.
      * destruct (replace_children r config _ nr1 g1 rest)
          as [[[nr3 g3] rest'] e3] eqn:Erest.
        intros [= <- <- <- <-]. simpl. rewrite Hcls, Einst.
        rewrite (replace_targets_app _ _ _ _ _ _ _ _ _ _ Hflat).
        rewrite (IHrest _ _ _ _ _ _ Erest). reflexivity.
Qed.

(** A run that goes through has made one replacement per module, each with
    the properties of [replace_attention_Ok]. *)
Lemma replace_targets_None (r : Z) (config : Config) (ts : list Module) :
  forall nr g nr' g' ts',
    replace_targets r config nr g ts = (nr', g', ts', None) ->
    nr' = nr + length ts /\
    Forall2 (fun old new =>
               m_class new = LoraRobertaSelfAttention /\
               count_unadapted new = 0 /\
               state_keys old = state_keys_without_lora new /\
               carries old new) ts ts'.
Proof.
  induction ts as [|t ts IH]; intros nr g nr' g' ts'; simpl.
  - intros [= <- <- <-]. split; [lia | constructor].
  - destruct (replace_attention r config t g) as [[new|e] g0] eqn:Enew; [|discriminate].
    destruct (replace_targets r config (S nr) g0 ts) as [[[nr2 g2] ts2] e2] eqn:E.
    intros [= <- <- <- ->]. destruct (IH _ _ _ _ _ E) as [-> Hall].
    split; [lia|]. constructor; [|exact Hall].
    exact (replace_attention_Ok _ _ _ _ _ _ Enew).
Qed.

(** The first replacement that raises ends the run with its exception. *)
Lemma replace_targets_first_failure (r : Z) (config : Config)
    (pre post done : list Module) (t : Module) (nr nr1 : nat) (g g1 g2 : Rng) (e : Exn) :
  replace_targets r config nr g pre = (nr1, g1, done, None) ->
  replace_attention r config t g1 = (Raise e, g2) ->
  replace_targets r config nr g (pre ++ t :: post) = (S nr1, g2, done ++ t :: post, Some e).
Proof.
  intros Hpre Ht. rewrite (replace_targets_app _ _ _ _ _ _ _ _ _ _ Hpre).
  simpl. rewrite Ht. reflexivity.
Qed.

(** A module with a key that starts with "lora_" never passes the check. *)
Lemma replace_attention_rejects_lora_key (r : Z) (config : Config) (old : Module)
    (g : Rng) (k : string) :
  In k (map fst (state_dict old)) -> startswith "lora_" k = true ->
  is_ok (fst (replace_attention r config old g)) = false.
Proof.
  intros Hk Hlora.
  destruct (replace_attention r config old g) as [[new|e] g1] eqn:E; [|reflexivity].
  exfalso. destruct (replace_attention_Ok _ _ _ _ _ _ E) as (_ & _ & Hkeys & _).
  assert (Hin : k ∈ state_keys old)
    by (apply elem_of_list_to_set, list_elem_of_In, Hk).
  rewrite Hkeys in Hin. unfold state_keys_without_lora in Hin.
  apply elem_of_list_to_set, list_elem_of_filter in Hin. destruct Hin as [Hneg _].
  rewrite Hlora in Hneg. exact Hneg.
Qed.

(** When the recursion goes through, no unadapted attention module is left
    below the root. *)
Lemma replace_recursion_leaves_none (r : Z) (config : Config) (model : Module) :
  forall nr g nr' g' model',
    replace_multihead_attention_recursion r config nr g model = (nr', g', model', None) ->
    count_unadapted model' = 0.
Proof.
  induction model as [cls attrs params buffers children IH] using Module_ind'.
  intros nr g nr' g' model'. simpl.
  destruct (replace_children r config (replace_multihead_attention_recursion r config)
              nr g children) as [[[nr2 g2] children'] e2] eqn:E.
  intros [= <- <- <- ->]. simpl.
  revert nr g nr2 g2 children' E.
  induction IH as [|[name module] rest Hmodule _ IHrest];
    intros nr g nr2 g2 children'; simpl.
  - intros [= <- <- <-]. reflexivity.
  - destruct (isinstance_RobertaSelfAttention (m_class module)) eqn:Einst.
    + destruct (replace_attention r config module g) as [[new|e] g1] eqn:Enew;
        [|discriminate].
      destruct (replace_children r config _ (S nr) g1 rest)
        as [[[nr3 g3] rest'] e3] eqn:Erest.
      intros [= <- <- <- ->]. simpl. rewrite (IHrest _ _ _ _ _ Erest).
      destruct (replace_attention_Ok _ _ _ _ _ _ Enew) as (-> & -> & _). reflexivity.
    + simpl in Hmodule.
      destruct (replace_multihead_attention_recursion r config nr g module)
        as [[[nr1 g1] module'] [e1|]] eqn:Emodule; [discriminate|].
      destruct (replace_children r config _ nr1 g1 rest)
        as [[[nr3 g3] rest'] e3] eqn:Erest.
      intros [= <- <- <- ->]. simpl. rewrite (IHrest _ _ _ _ _ Erest).
      rewrite (Hmodule _ _ _ _ _ Emodule).
      destruct (replace_recursion_flat _ _ _ _ _ _ _ _ _ Emodule) as [_ ->].
      destruct (m_class module); try discriminate. reflexivity.
Qed.

(** An exception of module replacement is the exception of [__init__]. *)
Lemma init_raises_replacement_exception (fuel : nat) (env : Env) (args : InitArgs)
    (g g' : Rng) (m m' : Module) (config : Config) (nr' : nat) (e : Exn) :
  from_pretrained env (arg_model_id args) = Ok (m, config) ->
  replace_multihead_attention_recursion (arg_lora_rank args) config 0 g m
  = (nr', g', m', Some e) ->
  fst (LoraWrapperRobertaHelper_init (S fuel) env args g) = Raise e.
Proof.
  intros Hload Hreplace. simpl. rewrite Hload.
  unfold replace_multihead_attention, new_wrapper. simpl. rewrite Hreplace. reflexivity.
Qed.

Lemma Forall2_Forall_l {A B : Type} (P : A -> B -> Prop) (l : list A) (l' : list B) :
  Forall2 P l l' -> Forall (fun a => exists b, P a b) l.
Proof. induction 1; constructor; eauto. Qed.




(** C4.  In a construction whose model the hub has resolved: when module
    replacement goes through, every replaced module had the key set that
    its replacement has once the keys starting with "lora_" are left out;
    and when the replacements before some target went through, the new
    layer for that target was built and loaded, and the two key sets
    differ, [__init__] raises the assertion error that carries both sets. *)
Theorem integrity_check (fuel : nat) (env : Env) (args : InitArgs) (g : Rng)
    (m : Module) (config : Config) :
  from_pretrained env (arg_model_id args) = Ok (m, config) ->
  (forall nr' g' m',
      replace_multihead_attention_recursion (arg_lora_rank args) config 0 g m
      = (nr', g', m', None) ->
      Forall2 (fun old new => state_keys old = state_keys_without_lora new)
              (targets m) (targets m')) /\
  (forall pre t post nr1 g1 done fresh g2 loaded,
      targets m = pre ++ t :: post ->
      replace_targets (arg_lora_rank args) config 0 g pre = (nr1, g1, done, None) ->
      LoraRobertaSelfAttention_init (arg_lora_rank args) config g1 = (Ok fresh, g2) ->
      load_state_dict fresh (state_dict t) = Ok loaded ->
      state_keys t <> state_keys_without_lora loaded ->
      fst (LoraWrapperRobertaHelper_init (S fuel) env args g)
      = Raise (AssertionError (state_keys t) (state_keys_without_lora loaded))).
Proof.
  intros Hload. split.
  - intros nr' g' m' Hrec.
    destruct (replace_recursion_flat _ _ _ _ _ _ _ _ _ Hrec) as [Hflat _].
    destruct (replace_targets_None _ _ _ _ _ _ _ _ Hflat) as [_ Hall].
    eapply Forall2_impl; [exact Hall|]. simpl. intros old new (_ & _ & H & _). exact H.
  - intros pre t post nr1 g1 done fresh g2 loaded Htargets Hpre Hfresh Hloaded Hkeys.
    destruct (replace_multihead_attention_recursion (arg_lora_rank args) config 0 g m)
      as [[[nr' g'] m'] e] eqn:Hrec.
    destruct (replace_recursion_flat _ _ _ _ _ _ _ _ _ Hrec) as [Hflat _].
    assert (Hstep : replace_attention (arg_lora_rank args) config t g1
                    = (Raise (AssertionError (state_keys t)
                                (state_keys_without_lora loaded)), g2)).
    { unfold replace_attention. rewrite Hfresh. cbn [mbind Result_bind].
      rewrite Hloaded. cbn [mbind Result_bind].
      rewrite bool_decide_eq_false_2 by exact Hkeys. reflexivity. }
    rewrite Htargets in Hflat.
    rewrite (replace_targets_first_failure _ _ _ post _ _ _ _ _ _ _ _ Hpre Hstep) in Hflat.
    injection Hflat as <- <- _ <-.
    exact (init_raises_replacement_exception fuel env args g _ m _ config _ _ Hload Hrec).
Qed.

Lemma integrity_check_witness :
  fst (LoraWrapperRobertaHelper_init 1 example_decoder_env default_args example_rng)
  = Raise (AssertionError (state_keys example_decoder_cross)
             (state_keys_without_lora example_decoder_loaded)).
Proof.
  refine (proj2 (integrity_check 0 example_decoder_env default_args example_rng
                   example_decoder_model example_decoder_config eq_refl)
            [example_decoder_self] example_decoder_cross []
            (fst (fst (fst example_decoder_first)))
            (snd (fst (fst example_decoder_first)))
            (snd (fst example_decoder_first))
            (match fst example_decoder_fresh with Ok f => f | Raise _ => nn_Dropout end)
            (snd example_decoder_fresh)
            example_decoder_loaded _ _ _ _ _).
  - reflexivity.
  - vm_compute. reflexivity.
  - vm_compute. reflexivity.
  - vm_compute. reflexivity.
  - apply (bool_decide_eq_false_1
             (state_keys example_decoder_cross
              = state_keys_without_lora example_decoder_loaded)).
    vm_compute. reflexivity.
Defined.

(** * Further properties *)

(** ** Layouts *)

Lemma nn_Linear_is_linear (inn out : nat) (g : Rng) :
  is_linear inn out (fst (nn_Linear inn out g)).
Proof.
  unfold is_linear, nn_Linear. cbn -[Nat.mul].
  do 2 eexists. split; [reflexivity|].
  repeat split; unfold well_formed; cbn -[Nat.mul]; rewrite length_map, length_seq;
    reflexivity.
Qed.

(** What the base constructor builds has the children and the attributes of
    its configuration and position embedding type. *)
Lemma base_init_children (cls : PyClass) (config : Config) (p : option string)
    (g : Rng) (m : Module) :
  fst (RobertaSelfAttention_init cls config p g) = Ok m ->
  exists children,
    m = mkModule cls
          (Some (attention_attrs config (effective_position_embedding_type config p)))
          [] [] children /\
    is_attention_children config (effective_position_embedding_type config p) children.
Proof.
  unfold RobertaSelfAttention_init, attention_attrs, is_attention_children.
  cbv zeta. fold (effective_position_embedding_type config p).
  generalize (effective_position_embedding_type config p). intros pet.
  destruct (Nat.eqb_spec (cfg_num_attention_heads config) 0) as [|Hheads]; [discriminate|].
  destruct (Nat.eqb_spec (cfg_hidden_size config mod cfg_num_attention_heads config) 0)
    as [Hmod|]; [|discriminate].
  cbn [negb].
  generalize dependent (cfg_hidden_size config). intros hidden Hmod.
  generalize dependent (cfg_num_attention_heads config). intros heads Hheads Hmod.
  destruct (nn_Linear hidden (heads * (hidden / heads)) g) as [q g1] eqn:Eq.
  destruct (nn_Linear hidden (heads * (hidden / heads)) g1) as [k g2] eqn:Ek.
  destruct (nn_Linear hidden (heads * (hidden / heads)) g2) as [v g3] eqn:Ev.
  assert (Hq : is_linear hidden (heads * (hidden / heads)) q)
    by (pose proof (nn_Linear_is_linear hidden (heads * (hidden / heads)) g) as H;
        rewrite Eq in H; exact H).
  assert (Hk : is_linear hidden (heads * (hidden / heads)) k)
    by (pose proof (nn_Linear_is_linear hidden (heads * (hidden / heads)) g1) as H;
        rewrite Ek in H; exact H).
  assert (Hv : is_linear hidden (heads * (hidden / heads)) v)
    by (pose proof (nn_Linear_is_linear hidden (heads * (hidden / heads)) g2) as H;
        rewrite Ev in H; exact H).
  destruct (is_relative pet) eqn:Erel.
  - destruct (Nat.eqb_spec (cfg_max_position_embeddings config) 0) as [|Hmax];
      [discriminate|].
    destruct (nn_Embedding _ _ g3) as [e g4] eqn:Ee.
    intros [= <-]. eexists. split; [reflexivity|].
    split; [exact Hheads|]. split; [exact Hmod|].
    exists q, k, v, [("distance_embedding", e)].
    repeat split; auto.
    exists e. split; [reflexivity|].
    revert Ee. unfold nn_Embedding, is_embedding. cbn -[Nat.mul Nat.sub Nat.div].
    intros [= <- _]. eexists. split; [reflexivity|].
    split; [reflexivity|]. unfold well_formed. cbn -[Nat.mul Nat.sub Nat.div].
    rewrite length_map, length_seq. reflexivity.
  - intros [= <-]. eexists. split; [reflexivity|].
    split; [exact Hheads|]. split; [exact Hmod|].
    exists q, k, v, []. repeat split; auto.
Qed.

(** The base constructor gives the base layout. *)
Lemma base_init_layout (config : Config) (p : option string) (g : Rng) (m : Module) :
  fst (RobertaSelfAttention_init RobertaSelfAttention config p g) = Ok m ->
  is_base_attention config (effective_position_embedding_type config p) m.
Proof. intros H. exact (base_init_children _ _ _ _ _ H). Qed.

(** The constructor of the source gives the adapted layout, with both B
    matrices zero. *)
Lemma lora_init_layout (r : Z) (config : Config) (g : Rng) (m : Module) :
  fst (LoraRobertaSelfAttention_init r config g) = Ok m ->
  (0 <= r)%Z /\
  is_lora_attention config (cfg_position_embedding_type config) (Z.to_nat r) m /\
  get_parameter m "lora_query_matrix_B"
  = Ok (torch_zeros [cfg_num_attention_heads config
                     * (cfg_hidden_size config / cfg_num_attention_heads config);
                     Z.to_nat r]) /\
  get_parameter m "lora_value_matrix_B"
  = Ok (torch_zeros [cfg_num_attention_heads config
                     * (cfg_hidden_size config / cfg_num_attention_heads config);
                     Z.to_nat r]).
Proof.
  unfold LoraRobertaSelfAttention_init.
  destruct (RobertaSelfAttention_init LoraRobertaSelfAttention config None g)
    as [[base|e] g0] eqn:Ebase; [|discriminate].
  assert (Hb : fst (RobertaSelfAttention_init LoraRobertaSelfAttention config None g)
               = Ok base) by (rewrite Ebase; reflexivity).
  destruct (base_init_children _ _ _ _ _ Hb) as [children [-> Hchildren]].
  cbn [m_attrs effective_position_embedding_type] in *.
  cbn [attention_attrs all_head_size].
  destruct (Z.ltb_spec r 0) as [|Hr]; [discriminate|].
  unfold register_parameter. cbn -[torch_zeros Nat.mul Nat.div attention_attrs].
  intros [= <-]. split; [exact Hr|]. split; [|split; reflexivity].
  unfold is_lora_attention. do 5 eexists. split; [reflexivity|].
  split; [exact Hchildren|].
  repeat split; unfold well_formed; cbn -[Nat.mul Nat.div];
    rewrite ?length_map, ?length_seq, ?repeat_length; reflexivity.
Qed.

(** The layouts of the concrete modules. *)
Lemma example_attention_layout :
  is_lora_attention example_config "absolute" 2 example_attention.
Proof.
  exact (proj1 (proj2 (lora_init_layout 2 example_config example_rng
                         example_attention eq_refl))).
Qed.

Lemma example_trained_attention_layout :
  is_lora_attention example_config "absolute" 2 example_trained_attention.
Proof.
  unfold is_lora_attention. do 5 eexists. split; [reflexivity|].
  split; [|repeat split; reflexivity].
  split; [discriminate|]. split; [reflexivity|].
  do 4 eexists. split; [reflexivity|].
  repeat split; try (eexists _, _; split; [reflexivity|]; repeat split; reflexivity).
Qed.

Lemma example_rank_zero_layout :
  is_lora_attention example_config "absolute" 0 example_rank_zero_attention.
Proof.
  exact (proj1 (proj2 (lora_init_layout 0 example_config example_rng
                         example_rank_zero_attention eq_refl))).
Qed.

Lemma example_relative_layout :
  is_lora_attention example_decoder_config "relative_key" 2 example_relative_attention.
Proof.
  exact (proj1 (proj2 (lora_init_layout 2 example_decoder_config example_rng
                         example_relative_attention eq_refl))).
Qed.

Lemma example_base_attention_layout :
  is_base_attention example_config "absolute" example_base_attention.
Proof.
  exact (base_init_layout example_config None example_rng example_base_attention eq_refl).
Qed.

Lemma example_decoder_cross_layout :
  is_base_attention example_decoder_config "absolute" example_decoder_cross.
Proof.
  exact (base_init_layout example_decoder_config (Some "absolute") example_rng
           example_decoder_cross eq_refl).
Qed.

Lemma is_linear_lookup (inn out : nat) (m : Module) :
  is_linear inn out m ->
  exists w b, get_parameter m "weight" = Ok w /\ get_parameter m "bias" = Ok b /\
              shape w = [out; inn] /\ shape b = [out] /\
              well_formed w /\ well_formed b.
Proof.
  intros (w & b & -> & Hw & Hb & Hwf & Hbf).
  exists (p_data w), (p_data b). repeat split; assumption.
Qed.

(** The three projections of an attention module are square linear layers
    of the hidden size. *)
Lemma attention_children_projections (config : Config) (pet : string)
    (children : list (string * Module)) :
  is_attention_children config pet children ->
  cfg_num_attention_heads config
  * (cfg_hidden_size config / cfg_num_attention_heads config) = cfg_hidden_size config /\
  exists q k v,
    assoc "query" children = Some q /\ assoc "key" children = Some k /\
    assoc "value" children = Some v /\
    is_linear (cfg_hidden_size config) (cfg_hidden_size config) q /\
    is_linear (cfg_hidden_size config) (cfg_hidden_size config) k /\
    is_linear (cfg_hidden_size config) (cfg_hidden_size config) v.
Proof.
  unfold is_attention_children. cbv zeta.
  intros (Hheads & Hmod & q & k & v & rest & -> & Hq & Hk & Hv & _).
  pose proof (all_head_size_is_hidden _ _ Hmod) as Hall.
  rewrite Hall in Hq, Hk, Hv. split; [exact Hall|].
  exists q, k, v. repeat split; assumption.
Qed.

(** ** Merging the LoRA weight *)

Lemma entry_zip_with_add (a c : list Z) (n : nat) :
  length a = length c ->
  entry (zip_with Z.add a c) n = (entry a n + entry c n)%Z.
Proof.
  unfold entry. revert c n. induction a as [|x a IH]; intros [|y c] n Hlen;
    simpl in *; try discriminate.
  - destruct n; reflexivity.
  - destruct n as [|n]; [reflexivity|]. apply IH. lia.
Qed.

Lemma dot_add_r (k : nat) (f g1 g2 : nat -> Z) :
  dot k f (fun l => (g1 l + g2 l)%Z) = (dot k f g1 + dot k f g2)%Z.
Proof.
  unfold dot. induction (seq 0 k) as [|l ls IH]; simpl; [reflexivity|].
  rewrite IH. lia.
Qed.

Lemma zip_with_add_map (f1 f2 : nat -> Z) (l : list nat) :
  map (fun j => (f1 j + f2 j)%Z) l = zip_with Z.add (map f1 l) (map f2 l).
Proof. induction l as [|j l IH]; simpl; [reflexivity|]. rewrite IH. reflexivity. Qed.

Lemma zip_with_add_swap (a b c : list Z) :
  zip_with Z.add (zip_with Z.add a b) c = zip_with Z.add (zip_with Z.add a c) b.
Proof.
  revert b c. induction a as [|x a IH]; intros [|y b] [|z c]; simpl; try reflexivity.
  rewrite IH. f_equal. lia.
Qed.

Lemma zip_with_add_flat_map (f h : nat -> list Z) (l : list nat) :
  (forall i, length (f i) = length (h i)) ->
  zip_with Z.add (flat_map f l) (flat_map h l)
  = flat_map (fun i => zip_with Z.add (f i) (h i)) l.
Proof.
  intros Hlen. induction l as [|i l IH]; simpl; [reflexivity|].
  rewrite zip_with_app by apply Hlen. rewrite IH. reflexivity.
Qed.

(** A linear layer plus a bias-free linear map of the same shape is the
    linear layer of the sum of the two weights, errors included. *)
Lemma linear_merge (x w b W : Tensor) (out inn : nat) :
  shape w = [out; inn] -> shape W = [out; inn] -> shape b = [out] ->
  well_formed w -> well_formed W -> well_formed b ->
  (q ← F_linear x w (Some b); delta ← F_linear x W None; torch_add q delta)
  = (merged ← torch_add w W; F_linear x merged (Some b)).
Proof.
  intros Hw HW Hb Hwf HWf Hbf. unfold torch_add at 2.
  rewrite bool_decide_eq_true_2 by congruence. cbn [mbind Result_bind].
  unfold F_linear. cbn [shape data]. rewrite Hw, HW.
  destruct (split_last_dim (shape x)) as [[lead k]|]; [|reflexivity].
  destruct (Nat.eqb k inn); [|reflexivity].
  rewrite bool_decide_eq_true_2 by exact Hb. cbn [mbind Result_bind].
  unfold torch_add. cbn [shape data].
  rewrite bool_decide_eq_true_2 by reflexivity. f_equal. f_equal.
  assert (Hlen : length (data w) = length (data W)).
  { unfold well_formed in *. rewrite Hwf, HWf, Hw, HW. reflexivity. }
  assert (Hblen : length (data b) = out).
  { unfold well_formed in Hbf. rewrite Hbf, Hb. simpl. lia. }
  rewrite zip_with_add_flat_map.
  - apply flat_map_ext. intros i.
    rewrite zip_with_add_swap. f_equal.
    rewrite <- zip_with_add_map. apply map_ext. intros j.
    rewrite <- dot_add_r. unfold dot. f_equal. apply map_ext. intros l.
    rewrite entry_zip_with_add by exact Hlen. reflexivity.
  - intros i. rewrite length_zip_with, !length_map, length_seq. lia.
Qed.

(** The product of a (m, k) and a (k, n) matrix is a well-formed (m, n)
    matrix. *)
Lemma torch_matmul_shapes (B A : Tensor) (m k n : nat) :
  shape B = [m; k] -> shape A = [k; n] ->
  exists W, torch_matmul B A = Ok W /\ shape W = [m; n] /\ well_formed W.
Proof.
  intros HB HA. unfold torch_matmul. rewrite HB, HA, Nat.eqb_refl.
  eexists. split; [reflexivity|]. split; [reflexivity|].
  unfold well_formed. cbn [shape data].
  rewrite (flat_map_length_const _ _ n).
  - rewrite length_seq. simpl. lia.
  - intros i. rewrite length_map, length_seq. reflexivity.
Qed.

(** The general form of [lora_query] and [lora_value] on a module that has
    the projection [proj] as a linear layer of d inputs and outputs and the
    pair [Bname], [Aname] with shapes (d, r) and (r, d). *)
Lemma lora_projection_merged (self layer : Module) (proj Bname Aname : string)
    (w b B A : Tensor) (d r : nat) (x : Tensor) :
  get_module self proj = Ok layer ->
  get_parameter layer "weight" = Ok w -> get_parameter layer "bias" = Ok b ->
  get_parameter self Bname = Ok B -> get_parameter self Aname = Ok A ->
  shape w = [d; d] -> shape b = [d] -> shape B = [d; r] -> shape A = [r; d] ->
  well_formed w -> well_formed b ->
  (B ← get_parameter self Bname;
   A ← get_parameter self Aname;
   W ← torch_matmul B A;
   base ← (l ← get_module self proj; Linear_forward l x);
   delta ← F_linear x W None;
   torch_add base delta)
  = merged_linear self proj Bname Aname x /\
  is_ok (merged_weight self proj Bname Aname) = true.
Proof.
  intros Hl Hw Hb HB HA Hsw Hsb HsB HsA Hwf Hbf.
  unfold merged_linear, merged_weight. rewrite HB, HA, Hl. cbn [mbind Result_bind].
  rewrite Hw, Hb. cbn [mbind Result_bind].
  destruct (torch_matmul_shapes B A d r d HsB HsA) as (W & -> & HsW & HWf).
  cbn [mbind Result_bind]. unfold Linear_forward. rewrite Hw, Hb.
  cbn [mbind Result_bind].
  rewrite (linear_merge x w b W d d) by assumption.
  unfold torch_add. rewrite bool_decide_eq_true_2 by congruence.
  cbn [mbind Result_bind]. split; reflexivity.
Qed.



(** With rank 0 the product B.A is the zero matrix. *)
Lemma matmul_rank_zero (B A : Tensor) (d : nat) :
  shape B = [d; 0] -> shape A = [0; d] ->
  exists W, torch_matmul B A = Ok W /\ shape W = [d; d] /\ all_zero W.
Proof.
  intros HB HA. unfold torch_matmul. rewrite HB, HA. cbn [Nat.eqb].
  eexists. split; [reflexivity|]. split; [reflexivity|].
  unfold all_zero. cbn [data]. apply flat_map_Forall. intros i.
  apply Forall_map, Forall_forall. intros j _. reflexivity.
Qed.



(** ** Replacement on a matching layout *)

(** The constructor of the adapted module goes through for a rank that is
    not negative, when the configuration fits an attention module. *)
Lemma lora_init_succeeds (r : Z) (config : Config) (g : Rng)
    (children : list (string * Module)) :
  (0 <= r)%Z ->
  is_attention_children config (cfg_position_embedding_type config) children ->
  exists fresh g1, LoraRobertaSelfAttention_init r config g = (Ok fresh, g1).
Proof.
  intros Hr (Hheads & Hmod & q & k & v & rest & _ & _ & _ & _ & Hrel).
  unfold LoraRobertaSelfAttention_init, RobertaSelfAttention_init.
  apply Nat.eqb_neq in Hheads. rewrite Hheads.
  apply Nat.eqb_eq in Hmod. rewrite Hmod. cbn [negb].
  destruct (is_relative (cfg_position_embedding_type config)).
  - destruct Hrel as [Hmax _]. apply Nat.eqb_neq in Hmax. rewrite Hmax.
    cbn -[torch_zeros Nat.mul Nat.div Nat.sub].
    destruct (Z.ltb_spec r 0) as [|_]; [lia|].
    cbn -[torch_zeros Nat.mul Nat.div Nat.sub]. eauto.
  - cbn -[torch_zeros Nat.mul Nat.div Nat.sub].
    destruct (Z.ltb_spec r 0) as [|_]; [lia|].
    cbn -[torch_zeros Nat.mul Nat.div Nat.sub]. eauto.
Qed.

(** The loads and key comparisons on modules of known layout, computed. *)
Ltac load_computed :=
  cbv [load_from load_tensor load_errors load_error state_dict state_dict_from assoc
       String.eqb Ascii.eqb Bool.eqb String.app flat_map map app fst snd nn_Dropout];
  rewrite !bool_decide_eq_true_2 by congruence.

Ltac linear_layout :=
  eexists _, _; split; [reflexivity|]; cbn [p_data]; repeat split; assumption.

(** Lines 267 to 288 on an unadapted module of the configuration: the
    replacement goes through and gives an adapted module of the configuration
    and the rank; both LoRA pairs of this module are in the state
    [zero_delta], its base projections are those of the old module, and it
    holds the tensors of the old module after its four LoRA matrices. *)
Lemma replace_attention_matching (r : Z) (config : Config) (old : Module) (g : Rng) :
  (0 <= r)%Z ->
  is_base_attention config (cfg_position_embedding_type config) old ->
  exists new g1,
    replace_attention r config old g = (Ok new, g1) /\
    is_lora_attention config (cfg_position_embedding_type config) (Z.to_nat r) new /\
    (zero_delta new "lora_query_matrix_B" "lora_query_matrix_A" "query" /\
     zero_delta new "lora_value_matrix_B" "lora_value_matrix_A" "value" /\
     forall x : Tensor,
       query new x = query old x /\ key new x = key old x /\
       value new x = value old x) /\
    exists A_query A_value,
      state_dict new
      = [("lora_query_matrix_B", torch_zeros [cfg_hidden_size config; Z.to_nat r]);
         ("lora_query_matrix_A", A_query);
         ("lora_value_matrix_B", torch_zeros [cfg_hidden_size config; Z.to_nat r]);
         ("lora_value_matrix_A", A_value)] ++ state_dict old.
Proof.
  intros Hr (children & -> & Hch).
  destruct (lora_init_succeeds r config g children Hr Hch) as (fresh & g1 & Einit).
  exists (load_from (state_dict (mkModule RobertaSelfAttention
            (Some (attention_attrs config (cfg_position_embedding_type config)))
            [] [] children)) "" fresh), g1.
  assert (Hfresh : fst (LoraRobertaSelfAttention_init r config g) = Ok fresh)
    by (rewrite Einit; reflexivity).
  destruct (lora_init_layout _ _ _ _ Hfresh) as (_ & Hlayout & HqB0 & HvB0).
  unfold replace_attention. rewrite Einit. cbn [mbind Result_bind].
  destruct Hlayout as (qB & qA & vB & vA & children' & -> & Hch' & HqB & HqA & HvB & HvA
                       & HqBf & HqAf & HvBf & HvAf).
  injection HqB0 as HqB0. injection HvB0 as HvB0.
  pose proof Hch as (_ & Hmod & _).
  pose proof (all_head_size_is_hidden _ _ Hmod) as Hall.
  destruct Hch as (Hheads & _ & q & k & v & rest & -> & Hq & Hk & Hv & Hrel).
  destruct Hch' as (_ & _ & q' & k' & v' & rest' & -> & Hq' & Hk' & Hv' & Hrel').
  destruct Hq as (wq & bq & -> & Hq).
  destruct Hk as (wk & bk & -> & Hk).
  destruct Hv as (wv & bv & -> & Hv).
  destruct Hq' as (wq' & bq' & -> & Hq').
  destruct Hk' as (wk' & bk' & -> & Hk').
  destruct Hv' as (wv' & bv' & -> & Hv').
  destruct Hq as (Hq1 & Hq2 & Hq3 & Hq4), Hk as (Hk1 & Hk2 & Hk3 & Hk4),
    Hv as (Hv1 & Hv2 & Hv3 & Hv4).
  destruct Hq' as (Hq1' & Hq2' & _), Hk' as (Hk1' & Hk2' & _), Hv' as (Hv1' & Hv2' & _).
  rewrite Hall in HqB0, HvB0, HqB, HvB, HqA, HvA, Hq1, Hq2, Hk1, Hk2, Hv1, Hv2,
    Hq1', Hq2', Hk1', Hk2', Hv1', Hv2'.
  destruct (is_relative (cfg_position_embedding_type config)) eqn:Erel.
  - destruct Hrel as (Hmax & e & -> & we & -> & He1 & He2).
    destruct Hrel' as (_ & e' & -> & we' & -> & He1' & _).
    split; [|split; [|split]].
    + unfold load_state_dict. load_computed. cbn [mbind Result_bind].
      rewrite bool_decide_eq_true_2; [reflexivity|].
      vm_compute. reflexivity.
    + load_computed. unfold is_lora_attention. do 5 eexists. split; [reflexivity|].
      cbn [p_data]. split; [|rewrite Hall; repeat split; assumption].
      unfold is_attention_children. cbv zeta. rewrite Erel, Hall.
      split; [exact Hheads|]. split; [exact Hmod|].
      do 4 eexists. split; [reflexivity|].
      split; [linear_layout|]. split; [linear_layout|]. split; [linear_layout|].
      split; [exact Hmax|]. eexists. split; [reflexivity|].
      eexists. split; [reflexivity|]. cbn [p_data]. split; assumption.
    + load_computed. split; [|split; [|intros x; repeat split]].
      * exists (cfg_hidden_size config), (Z.to_nat r). do 4 eexists.
        split; [cbn; rewrite HqB0; reflexivity|].
        split; [reflexivity|]. cbn [p_data]. split; [exact HqA|].
        split; [reflexivity|]. split; [reflexivity|].
        cbn [p_data]. split; [exact Hq1|].
        split; [reflexivity|]. cbn [p_data]. split; assumption.
      * exists (cfg_hidden_size config), (Z.to_nat r). do 4 eexists.
        split; [cbn; rewrite HvB0; reflexivity|].
        split; [reflexivity|]. cbn [p_data]. split; [exact HvA|].
        split; [reflexivity|]. split; [reflexivity|].
        cbn [p_data]. split; [exact Hv1|].
        split; [reflexivity|]. cbn [p_data]. split; assumption.
    + load_computed. eexists _, _. rewrite HqB0, HvB0. reflexivity.
  - subst rest rest'.
    split; [|split; [|split]].
    + unfold load_state_dict. load_computed. cbn [mbind Result_bind].
      rewrite bool_decide_eq_true_2; [reflexivity|].
      vm_compute. reflexivity.
    + load_computed. unfold is_lora_attention. do 5 eexists. split; [reflexivity|].
      cbn [p_data]. split; [|rewrite Hall; repeat split; assumption].
      unfold is_attention_children. cbv zeta. rewrite Erel, Hall.
      split; [exact Hheads|]. split; [exact Hmod|].
      do 4 eexists. split; [reflexivity|].
      split; [linear_layout|]. split; [linear_layout|]. split; [linear_layout|].
      reflexivity.
    + load_computed. split; [|split; [|intros x; repeat split]].
      * exists (cfg_hidden_size config), (Z.to_nat r). do 4 eexists.
        split; [cbn; rewrite HqB0; reflexivity|].
        split; [reflexivity|]. cbn [p_data]. split; [exact HqA|].
        split; [reflexivity|]. split; [reflexivity|].
        cbn [p_data]. split; [exact Hq1|].
        split; [reflexivity|]. cbn [p_data]. split; assumption.
      * exists (cfg_hidden_size config), (Z.to_nat r). do 4 eexists.
        split; [cbn; rewrite HvB0; reflexivity|].
        split; [reflexivity|]. cbn [p_data]. split; [exact HvA|].
        split; [reflexivity|]. split; [reflexivity|].
        cbn [p_data]. split; [exact Hv1|].
        split; [reflexivity|]. cbn [p_data]. split; assumption.
    + load_computed. eexists _, _. rewrite HqB0, HvB0. reflexivity.
Qed.



Lemma replace_targets_matching (r : Z) (config : Config) (ts : list Module) :
  (0 <= r)%Z ->
  Forall (is_base_attention config (cfg_position_embedding_type config)) ts ->
  forall nr g,
  exists g' ts',
    replace_targets r config nr g ts = (nr + length ts, g', ts', None) /\
    Forall2 (fun _ new =>
               is_lora_attention config (cfg_position_embedding_type config)
                 (Z.to_nat r) new) ts ts'.
Proof.
  intros Hr Hall. induction Hall as [|t ts Ht _ IH]; intros nr g.
  - exists g, []. split; [simpl; f_equal; f_equal; f_equal; lia | constructor].
  - destruct (replace_attention_matching r config t g Hr Ht) as (new & g1 & Enew & Hnew & _).
    destruct (IH (S nr) g1) as (g' & ts' & Ets & Hts).
    exists g', (new :: ts'). simpl. rewrite Enew, Ets.
    split; [f_equal; f_equal; f_equal; lia | constructor; assumption].
Qed.



Lemma lora_init_succeeds_raw (r : Z) (config : Config) (g : Rng) :
  (0 <= r)%Z ->
  cfg_num_attention_heads config <> 0 ->
  cfg_hidden_size config mod cfg_num_attention_heads config = 0 ->
  (is_relative (cfg_position_embedding_type config) = true ->
   cfg_max_position_embeddings config <> 0) ->
  exists fresh g1, LoraRobertaSelfAttention_init r config g = (Ok fresh, g1).
Proof.
  intros Hr Hheads Hmod Hrel.
  unfold LoraRobertaSelfAttention_init, RobertaSelfAttention_init.
  apply Nat.eqb_neq in Hheads. rewrite Hheads.
  apply Nat.eqb_eq in Hmod. rewrite Hmod. cbn [negb].
  destruct (is_relative (cfg_position_embedding_type config)).
  - specialize (Hrel eq_refl). apply Nat.eqb_neq in Hrel. rewrite Hrel.
    cbn -[torch_zeros Nat.mul Nat.div Nat.sub].
    destruct (Z.ltb_spec r 0) as [|_]; [lia|].
    cbn -[torch_zeros Nat.mul Nat.div Nat.sub]. eauto.
  - cbn -[torch_zeros Nat.mul Nat.div Nat.sub].
    destruct (Z.ltb_spec r 0) as [|_]; [lia|].
    cbn -[torch_zeros Nat.mul Nat.div Nat.sub]. eauto.
Qed.

(** X5. An unadapted attention module whose position embedding type is
    relative where that of the configuration is not, or the other way round
    (the cross-attention blocks of transformers are built "absolute" whatever
    the configuration says), cannot be replaced: the new layer is built and
    loaded, and the assertion of line 286 fails, with the two key sets,
    which differ. *)
Theorem position_type_mismatch_raises (r : Z) (config : Config) (pet : string)
    (old : Module) (g : Rng) :
  (0 <= r)%Z ->
  is_base_attention config pet old ->
  is_relative pet <> is_relative (cfg_position_embedding_type config) ->
  cfg_max_position_embeddings config <> 0 ->
  exists keys_old keys_new g1,
    replace_attention r config old g = (Raise (AssertionError keys_old keys_new), g1) /\
    keys_old <> keys_new.
Proof.
  intros Hr (children & -> & Hch) Hne Hmax.
  pose proof Hch as (Hheads & Hmod & _).
  destruct (lora_init_succeeds_raw r config g Hr Hheads Hmod (fun _ => Hmax))
    as (fresh & g1 & Einit).
  assert (Hfresh : fst (LoraRobertaSelfAttention_init r config g) = Ok fresh)
    by (rewrite Einit; reflexivity).
  destruct (lora_init_layout _ _ _ _ Hfresh) as (_ & Hlayout & _).
  unfold replace_attention. rewrite Einit. cbn [mbind Result_bind].
  destruct Hlayout as (qB & qA & vB & vA & children' & -> & Hch' & _).
  destruct Hch as (_ & _ & q & k & v & rest & -> & Hq & Hk & Hv & Hrel).
  destruct Hch' as (_ & _ & q' & k' & v' & rest' & -> & Hq' & Hk' & Hv' & Hrel').
  destruct Hq as (wq & bq & -> & Hq1 & Hq2 & _).
  destruct Hk as (wk & bk & -> & Hk1 & Hk2 & _).
  destruct Hv as (wv & bv & -> & Hv1 & Hv2 & _).
  destruct Hq' as (wq' & bq' & -> & Hq1' & Hq2' & _).
  destruct Hk' as (wk' & bk' & -> & Hk1' & Hk2' & _).
  destruct Hv' as (wv' & bv' & -> & Hv1' & Hv2' & _).
  destruct (is_relative pet), (is_relative (cfg_position_embedding_type config));
    try congruence.
  - destruct Hrel as (_ & e & -> & we & -> & _). subst rest'.
    unfold load_state_dict. load_computed. cbn [mbind Result_bind].
    match goal with
    | |- context [bool_decide (?a = ?b)] =>
        assert (Hkeys : a <> b) by (apply (bool_decide_eq_false_1 (a = b));
                                    vm_compute; reflexivity)
    end.
    rewrite bool_decide_eq_false_2 by exact Hkeys. eauto.
  - destruct Hrel' as (_ & e' & -> & we' & -> & _). subst rest.
    unfold load_state_dict. load_computed. cbn [mbind Result_bind].
    match goal with
    | |- context [bool_decide (?a = ?b)] =>
        assert (Hkeys : a <> b) by (apply (bool_decide_eq_false_1 (a = b));
                                    vm_compute; reflexivity)
    end.
    rewrite bool_decide_eq_false_2 by exact Hkeys. eauto.
Qed.

Lemma position_type_mismatch_raises_witness :
  exists keys_old keys_new g1,
    replace_attention 8 example_decoder_config example_decoder_cross example_rng
    = (Raise (AssertionError keys_old keys_new), g1) /\
    keys_old <> keys_new.
Proof.
  apply (position_type_mismatch_raises 8 example_decoder_config "absolute"
           example_decoder_cross example_rng).
  - lia.
  - exact example_decoder_cross_layout.
  - vm_compute. discriminate.
  - vm_compute. discriminate.
Defined.

(** ** Trainable marks after replacement *)

(** [load_state_dict] copies values and leaves every mark as it is. *)
Lemma named_parameters_load_from (sd : list (string * Tensor)) (m : Module) :
  forall prefix,
    map (fun np => (fst np, requires_grad (snd np)))
        (named_parameters_from prefix (load_from sd prefix m))
    = map (fun np => (fst np, requires_grad (snd np))) (named_parameters_from prefix m).
Proof.
  induction m as [cls attrs params buffers children IH] using Module_ind'.
  intros prefix. simpl. rewrite !map_app, !map_map. simpl. f_equal.
  induction IH as [|[n c] cs Hc _ IHcs]; simpl; [reflexivity|].
  rewrite !map_app, Hc, IHcs. reflexivity.
Qed.

(** Every parameter of a module that the constructor has just built is
    trainable. *)
Lemma fresh_lora_trainable (r : Z) (config : Config) (g : Rng) (m : Module) :
  fst (LoraRobertaSelfAttention_init r config g) = Ok m ->
  Forall (fun np => requires_grad (snd np) = true) (named_parameters m).
Proof.
  unfold LoraRobertaSelfAttention_init, RobertaSelfAttention_init.
  destruct (Nat.eqb (cfg_num_attention_heads config) 0); [discriminate|].
  destruct (negb _); [discriminate|].
  destruct (is_relative _);
    [destruct (Nat.eqb (cfg_max_position_embeddings config) 0); [discriminate|]|];
    cbn -[torch_zeros Nat.mul Nat.div Nat.sub];
    (destruct (r <? 0)%Z; [discriminate|]);
    cbn -[torch_zeros Nat.mul Nat.div Nat.sub];
    intros [= <-]; repeat constructor.
Qed.

Lemma replace_attention_trainable (r : Z) (config : Config) (old new : Module)
    (g g1 : Rng) :
  replace_attention r config old g = (Ok new, g1) ->
  Forall (fun np => requires_grad (snd np) = true) (named_parameters new).
Proof.
  unfold replace_attention.
  destruct (LoraRobertaSelfAttention_init r config g) as [[fresh|e] g0] eqn:Einit;
    [|discriminate].
  cbn [mbind Result_bind].
  destruct (load_state_dict fresh (state_dict old)) as [loaded|e] eqn:Eload;
    [|discriminate].
  cbn [mbind Result_bind]. destruct (bool_decide _); [|discriminate].
  intros [= <- <-].
  assert (Hfresh : fst (LoraRobertaSelfAttention_init r config g) = Ok fresh)
    by (rewrite Einit; reflexivity).
  apply fresh_lora_trainable in Hfresh.
  assert (Hloaded : loaded = load_from (state_dict old) "" fresh).
  { revert Eload. unfold load_state_dict. destruct (load_errors _ _ _); congruence. }
  subst loaded. unfold named_parameters in *.
  apply List.Forall_forall. intros [n p] Hin. cbn [snd].
  assert (Hin' : In (n, requires_grad p)
                   (map (fun np => (fst np, requires_grad (snd np)))
                      (named_parameters_from "" fresh))).
  { rewrite <- (named_parameters_load_from (state_dict old)). apply in_map_iff.
    exists (n, p). split; [reflexivity | exact Hin]. }
  apply in_map_iff in Hin'. destruct Hin' as [[n' p'] [[= _ Hp] Hin']].
  rewrite <- Hp. rewrite List.Forall_forall in Hfresh. exact (Hfresh _ Hin').
Qed.

Lemma replace_targets_Forall (r : Z) (config : Config) (P : Module -> Prop) :
  (forall old new g g1, replace_attention r config old g = (Ok new, g1) -> P new) ->
  forall ts nr g nr' g' ts',
    replace_targets r config nr g ts = (nr', g', ts', None) -> Forall P ts'.
Proof.
  intros HP. induction ts as [|t ts IH]; intros nr g nr' g' ts'; simpl.
  - intros [= <- <- <-]. constructor.
  - destruct (replace_attention r config t g) as [[new|e] g0] eqn:Enew; [|discriminate].
    destruct (replace_targets r config (S nr) g0 ts) as [[[nr2 g2] ts2] e2] eqn:E.
    intros [= <- <- <- ->]. constructor; [exact (HP _ _ _ _ Enew) | exact (IH _ _ _ _ _ E)].
Qed.



(** ** More on module replacement *)

Lemma targets_nil_children (children : list (string * Module)) :
  flat_map (fun nc => if isinstance_RobertaSelfAttention (m_class (snd nc))
                      then [snd nc] else targets (snd nc)) children = [] ->
  Forall (fun nc => isinstance_RobertaSelfAttention (m_class (snd nc)) = false
                    /\ targets (snd nc) = []) children.
Proof.
  induction children as [|[n c] cs IH]; simpl; [constructor|].
  intros H. apply app_eq_nil in H. destruct H as [H1 H2].
  constructor; [|exact (IH H2)]. simpl.
  destruct (isinstance_RobertaSelfAttention (m_class c)); [discriminate | auto].
Qed.

(** X7. On a tree with no attention module below its root the recursion
    changes nothing: the tree, the counter and the random generator come
    back as they went in, and nothing is raised. *)
Theorem replacement_without_targets (r : Z) (config : Config) (model : Module) :
  targets model = [] ->
  forall nr g,
    replace_multihead_attention_recursion r config nr g model = (nr, g, model, None).
Proof.
  induction model as [cls attrs params buffers children IH] using Module_ind'.
  simpl. intros Hnil nr g.
  apply targets_nil_children in Hnil.
  assert (H : replace_children r config (replace_multihead_attention_recursion r config)
                nr g children = (nr, g, children, None)).
  { revert nr g. induction children as [|[n c] cs IHcs]; intros nr g; simpl; [reflexivity|].
    inversion IH as [|? ? Hc Hcs]; subst. inversion Hnil as [|? ? [Hinst Ht] Hrest]; subst.
    simpl in *. rewrite Hinst, (Hc Ht), (IHcs Hcs Hrest). reflexivity. }
  rewrite H. reflexivity.
Qed.

Lemma replacement_without_targets_witness :
  replace_multihead_attention_recursion 8 example_config 0 example_rng
    example_pooler
  = (0, example_rng,
     example_pooler, None).
Proof.
  apply (replacement_without_targets 8 example_config
           example_pooler).
  reflexivity.
Defined.

(** What a run that raises leaves behind. *)
Lemma replace_targets_Some (r : Z) (config : Config) (ts : list Module) :
  forall nr g nr' g' ts' e,
    replace_targets r config nr g ts = (nr', g', ts', Some e) ->
    exists pre t post done g1,
      ts = pre ++ t :: post /\ ts' = done ++ t :: post /\
      replace_targets r config nr g pre = (nr + length pre, g1, done, None) /\
      replace_attention r config t g1 = (Raise e, g') /\
      nr' = nr + length pre + 1.
Proof.
  induction ts as [|t ts IH]; intros nr g nr' g' ts' e; simpl; [discriminate|].
  destruct (replace_attention r config t g) as [[new|e0] g0] eqn:Enew.
  - destruct (replace_targets r config (S nr) g0 ts) as [[[nr2 g2] ts2] e2] eqn:E.
    intros [= <- <- <- ->].
    destruct (IH _ _ _ _ _ _ E) as (pre & t' & post & done & g1 & -> & -> & Hpre & Ht & ->).
    exists (t :: pre), t', post, (new :: done), g1. simpl. rewrite Enew, Hpre.
    repeat split; auto; try (f_equal; lia).
    replace (nr + S (length pre)) with (S nr + length pre) by lia. reflexivity.
  - intros [= <- <- <- <-]. exists [], t, ts, [], g. simpl.
    rewrite Nat.add_0_r. repeat split; auto. lia.
Qed.

(** X8. When the recursion raises, the model is left half converted: the
    attention modules met before the failing one have been replaced by
    adapted modules that carry their tensors, the failing one and those after
    it are still in place, and the counter has counted the replaced ones
    and the failing one. *)
Theorem replacement_failure_is_partial (r : Z) (config : Config) (nr nr' : nat)
    (g g' : Rng) (model model' : Module) (e : Exn) :
  replace_multihead_attention_recursion r config nr g model = (nr', g', model', Some e) ->
  exists pre t post done g1,
    targets model = pre ++ t :: post /\
    targets model' = done ++ t :: post /\
    Forall2 (fun old new => m_class new = LoraRobertaSelfAttention /\ carries old new)
            pre done /\
    replace_attention r config t g1 = (Raise e, g') /\
    nr' = nr + length pre + 1.
Proof.
  intros Hrec. destruct (replace_recursion_flat _ _ _ _ _ _ _ _ _ Hrec) as [Hflat _].
  destruct (replace_targets_Some _ _ _ _ _ _ _ _ _ Hflat)
    as (pre & t & post & done & g1 & Hts & Hts' & Hpre & Ht & Hnr).
  exists pre, t, post, done, g1. repeat split; auto.
  destruct (replace_targets_None _ _ _ _ _ _ _ _ Hpre) as [_ Hall].
  eapply Forall2_impl; [exact Hall|]. simpl. intros old new (H1 & _ & _ & H4). auto.
Qed.

Lemma replacement_failure_is_partial_witness :
  exists pre t post done g1,
    targets example_decoder_model = pre ++ t :: post /\
    targets (snd (fst example_decoder_replaced)) = done ++ t :: post /\
    Forall2 (fun old new => m_class new = LoraRobertaSelfAttention /\ carries old new)
            pre done /\
    replace_attention 8 example_decoder_config t g1
    = (Raise example_decoder_exception, snd (fst (fst example_decoder_replaced))) /\
    fst (fst (fst example_decoder_replaced)) = 0 + length pre + 1.
Proof.
  apply (replacement_failure_is_partial 8 example_decoder_config 0
           (fst (fst (fst example_decoder_replaced))) example_rng
           (snd (fst (fst example_decoder_replaced))) example_decoder_model
           (snd (fst example_decoder_replaced)) example_decoder_exception).
  vm_compute. reflexivity.
Defined.

(** The layer that a replacement builds has the LoRA keys. *)
Lemma fresh_lora_keys (r : Z) (config : Config) (g : Rng) (m : Module) :
  fst (LoraRobertaSelfAttention_init r config g) = Ok m ->
  In "lora_query_matrix_B" (map fst (state_dict m)).
Proof.
  unfold LoraRobertaSelfAttention_init, RobertaSelfAttention_init.
  destruct (Nat.eqb (cfg_num_attention_heads config) 0); [discriminate|].
  destruct (negb _); [discriminate|].
  destruct (is_relative _);
    [destruct (Nat.eqb (cfg_max_position_embeddings config) 0); [discriminate|]|];
    cbn -[torch_zeros Nat.mul Nat.div Nat.sub];
    (destruct (r <? 0)%Z; [discriminate|]);
    cbn -[torch_zeros Nat.mul Nat.div Nat.sub];
    intros [= <-]; left; reflexivity.
Qed.

Lemma replace_attention_Ok_lora_key (r : Z) (config : Config) (old new : Module)
    (g g1 : Rng) :
  replace_attention r config old g = (Ok new, g1) ->
  In "lora_query_matrix_B" (map fst (state_dict new)).
Proof.
  unfold replace_attention.
  destruct (LoraRobertaSelfAttention_init r config g) as [[fresh|e] g0] eqn:Einit;
    [|discriminate].
  cbn [mbind Result_bind].
  destruct (load_state_dict fresh (state_dict old)) as [loaded|e] eqn:Eload;
    [|discriminate].
  cbn [mbind Result_bind].
  destruct (bool_decide _); [|discriminate].
  intros [= <- <-]. rewrite (load_state_dict_keys _ _ _ Eload).
  apply (fresh_lora_keys r config g). rewrite Einit. reflexivity.
Qed.

(** X9. Module replacement cannot be run twice: on the model that a
    replacement which went through has left, and which had an attention
    module, any further run, with any rank and configuration, raises at the
    first attention module it meets, having counted one module. *)
Theorem second_replacement_raises (r r2 : Z) (config config2 : Config) (nr nr' nr2 : nat)
    (g g' g2 : Rng) (model model' : Module) :
  replace_multihead_attention_recursion r config nr g model = (nr', g', model', None) ->
  targets model <> [] ->
  exists e nr3 g3 model3,
    replace_multihead_attention_recursion r2 config2 nr2 g2 model'
    = (nr3, g3, model3, Some e) /\ nr3 = nr2 + 1.
Proof.
  intros Hrec Hne.
  destruct (replace_recursion_flat _ _ _ _ _ _ _ _ _ Hrec) as [Hflat _].
  destruct (targets model) as [|t ts] eqn:Et; [contradiction|]. clear Hne.
  simpl in Hflat.
  destruct (replace_attention r config t g) as [[new|e0] g0] eqn:Enew;
    [|discriminate].
  destruct (replace_targets r config (S nr) g0 ts) as [[[nrx gx] tsx] ex] eqn:E.
  injection Hflat as _ _ Hts' _.
  destruct (replace_multihead_attention_recursion r2 config2 nr2 g2 model')
    as [[[nr3 g3] model3] e3] eqn:Hrec2.
  destruct (replace_recursion_flat _ _ _ _ _ _ _ _ _ Hrec2) as [Hflat2 _].
  rewrite <- Hts' in Hflat2. simpl in Hflat2.
  pose proof (replace_attention_rejects_lora_key r2 config2 new g2 _
                (replace_attention_Ok_lora_key _ _ _ _ _ _ Enew) eq_refl) as Hrej.
  destruct (replace_attention r2 config2 new g2) as [[new2|e2] gy]; [discriminate|].
  injection Hflat2 as <- <- _ <-.
  exists e2, (S nr2), gy, model3. split; [reflexivity | lia].
Qed.

Lemma second_replacement_raises_witness :
  exists e nr3 g3 model3,
    replace_multihead_attention_recursion 8 example_config 0 example_rng
      (snd (fst example_replaced))
    = (nr3, g3, model3, Some e) /\ nr3 = 0 + 1.
Proof.
  apply (second_replacement_raises 8 8 example_config example_config 0
           (fst (fst (fst example_replaced))) 0
           example_rng (snd (fst (fst example_replaced))) example_rng example_model).
  - vm_compute. reflexivity.
  - vm_compute. discriminate.
Defined.

(** ** Tensors kept by module replacement *)

Lemma append_cons (x : ascii) (a b : string) : String x a +:+ b = String x (a +:+ b).
Proof. reflexivity. Qed.

Lemma append_assoc (a b c : string) : (a +:+ b) +:+ c = a +:+ (b +:+ c).
Proof.
  induction a as [|x a IH]; [reflexivity|]. rewrite !append_cons, IH. reflexivity.
Qed.

Lemma append_empty_r (a : string) : a +:+ "" = a.
Proof.
  induction a as [|x a IH]; [reflexivity|]. rewrite append_cons, IH. reflexivity.
Qed.

(** The state of a module under a prefix is its state with the prefix put
    before every key. *)
Lemma state_dict_from_prefix (m : Module) :
  forall p q,
    state_dict_from (p +:+ q) m
    = map (fun kt => (p +:+ fst kt, snd kt)) (state_dict_from q m).
Proof.
  induction m as [cls attrs params buffers children IH] using Module_ind'.
  intros p q. simpl. rewrite !map_app, !map_map. simpl.
  f_equal; [|f_equal].
  - apply map_ext. intros [n x]. simpl. rewrite append_assoc. reflexivity.
  - apply map_ext. intros [n x]. simpl. rewrite append_assoc. reflexivity.
  - induction IH as [|[n c] cs Hc _ IHcs]; simpl; [reflexivity|].
    rewrite map_app, append_assoc, Hc, IHcs. reflexivity.
Qed.

Lemma NoDup_keys_assoc {A : Type} (d : list (string * A)) (k : string) (v : A) :
  List.NoDup (map fst d) -> In (k, v) d -> assoc k d = Some v.
Proof.
  induction d as [|[k' v'] d IH]; simpl; [intros _ []|].
  intros Hnd [[= -> ->]|Hin].
  - rewrite String.eqb_refl. reflexivity.
  - apply List.NoDup_cons_iff in Hnd. destruct Hnd as [Hnot Hnd].
    destruct (String.eqb_spec k' k) as [->|_].
    + exfalso. apply Hnot, in_map_iff. exists (k, v). auto.
    + exact (IH Hnd Hin).
Qed.

Lemma carries_under_prefix (old new : Module) (p k : string) (t : Tensor) :
  carries old new ->
  List.NoDup (map fst (state_dict_from p old)) ->
  In (k, t) (state_dict_from p old) -> In (k, t) (state_dict_from p new).
Proof.
  intros Hcar Hnd Hin.
  rewrite <- (append_empty_r p) in Hnd, Hin |- *.
  rewrite state_dict_from_prefix in Hnd, Hin |- *.
  rewrite map_map in Hnd. simpl in Hnd.
  apply in_map_iff in Hin. destruct Hin as [[k0 t0] [[= <- <-] Hin]].
  apply in_map_iff. exists (k0, t0). split; [reflexivity|].
  apply assoc_Some_In, Hcar. apply NoDup_keys_assoc; [|exact Hin].
  change (fun x : string * Tensor => p +:+ fst x) with (fun x : string * Tensor => (String.app p) (fst x)) in Hnd.
  rewrite <- (map_map fst (String.app p)) in Hnd.
  exact (NoDup_map_inv _ _ Hnd).
Qed.

Lemma replacement_keeps_tensors_from (r : Z) (config : Config) (model : Module) :
  forall prefix nr g nr' g' model',
    List.NoDup (map fst (state_dict_from prefix model)) ->
    replace_multihead_attention_recursion r config nr g model = (nr', g', model', None) ->
    forall k t, In (k, t) (state_dict_from prefix model) ->
                In (k, t) (state_dict_from prefix model').
Proof.
  induction model as [cls attrs params buffers children IH] using Module_ind'.
  intros prefix nr g nr' g' model' Hnd. simpl.
  destruct (replace_children r config (replace_multihead_attention_recursion r config)
              nr g children) as [[[nr2 g2] children'] e2] eqn:E.
  intros [= <- <- <- ->] k t. simpl. rewrite !in_app_iff.
  intros [H|[H|H]]; [left; exact H | right; left; exact H | right; right].
  simpl in Hnd. rewrite !map_app in Hnd.
  apply NoDup_app_remove_l, NoDup_app_remove_l in Hnd.
  revert nr g nr2 g2 children' E Hnd H.
  induction IH as [|[name module] rest Hmodule _ IHrest];
    intros nr g nr2 g2 children'; simpl.
  - intros [= <- <- <-] _ [].
  - rewrite map_app. intros E Hnd.
    pose proof (NoDup_app_remove_r _ _ Hnd) as Hnd1.
    pose proof (NoDup_app_remove_l _ _ Hnd) as Hnd2.
    destruct (isinstance_RobertaSelfAttention (m_class module)) eqn:Einst.
    + destruct (replace_attention r config module g) as [[new|e] g1] eqn:Enew;
        [|discriminate].
      destruct (replace_children r config _ (S nr) g1 rest)
        as [[[nr3 g3] rest'] e3] eqn:Erest.
      injection E as <- <- <- ->. simpl. rewrite !in_app_iff.
      intros [H|H].
      * left. destruct (replace_attention_Ok _ _ _ _ _ _ Enew) as (_ & _ & _ & Hcar).
        exact (carries_under_prefix _ _ _ _ _ Hcar Hnd1 H).
      * right. exact (IHrest _ _ _ _ _ Erest Hnd2 H).
    + simpl in Hmodule.
      destruct (replace_multihead_attention_recursion r config nr g module)
        as [[[nr1 g1] module'] [e1|]] eqn:Emodule; [discriminate|].
      destruct (replace_children r config _ nr1 g1 rest)
        as [[[nr3 g3] rest'] e3] eqn:Erest.
      injection E as <- <- <- ->. simpl. rewrite !in_app_iff.
      intros [H|H].
      * left. exact (Hmodule _ _ _ _ _ _ Hnd1 Emodule _ _ H).
      * right. exact (IHrest _ _ _ _ _ Erest Hnd2 H).
Qed.

(** X10. A replacement that goes through keeps every tensor of the model
    under its key: whatever the state dictionary of a model with distinct
    keys holds, the state dictionary of the model that the recursion leaves
    holds under the same key (next to the new LoRA matrices). *)
Theorem replacement_keeps_every_tensor (r : Z) (config : Config) (nr nr' : nat)
    (g g' : Rng) (model model' : Module) :
  List.NoDup (map fst (state_dict model)) ->
  replace_multihead_attention_recursion r config nr g model = (nr', g', model', None) ->
  forall k t, In (k, t) (state_dict model) -> In (k, t) (state_dict model').
Proof.
  intros Hnd Hrec. exact (replacement_keeps_tensors_from r config model "" nr g nr' g' model'
                            Hnd Hrec).
Qed.

Lemma replacement_keeps_every_tensor_witness :
  In ("encoder.layer.0.attention.self.query.weight", example_query_weight)
     (state_dict (snd (fst example_replaced))).
Proof.
  apply (replacement_keeps_every_tensor 8 example_config 0
           (fst (fst (fst example_replaced))) example_rng
           (snd (fst (fst example_replaced))) example_model).
  - apply NoDup_ListNoDup.
    apply (bool_decide_unpack (NoDup (map fst (state_dict example_model)))).
    vm_compute. exact I.
  - vm_compute. reflexivity.
  - vm_compute. repeat (first [left; reflexivity | right]).
Defined.

(** ** Shapes in the forward pass *)

Lemma F_linear_shape (x w b : Tensor) (batch s inn out : nat) :
  shape x = [batch; s; inn] -> shape w = [out; inn] -> shape b = [out] ->
  exists y, F_linear x w (Some b) = Ok y /\ shape y = [batch; s; out].
Proof.
  intros Hx Hw Hb. unfold F_linear. rewrite Hx, Hw. cbn [split_last_dim rev app].
  rewrite Nat.eqb_refl, bool_decide_eq_true_2 by exact Hb.
  eexists. split; reflexivity.
Qed.

Lemma lora_linear_shape (x w b B A : Tensor) (batch s d r : nat) :
  shape x = [batch; s; d] -> shape w = [d; d] -> shape b = [d] ->
  shape B = [d; r] -> shape A = [r; d] ->
  exists y,
    (W ← torch_matmul B A;
     base ← F_linear x w (Some b);
     delta ← F_linear x W None;
     torch_add base delta) = Ok y /\
    shape y = [batch; s; d].
Proof.
  intros Hx Hw Hb HB HA.
  destruct (torch_matmul_shapes B A d r d HB HA) as (W & -> & HW & _).
  cbn [mbind Result_bind].
  unfold F_linear. rewrite Hx, Hw, HW. cbn [split_last_dim rev app].
  rewrite Nat.eqb_refl, bool_decide_eq_true_2 by exact Hb.
  cbn [mbind Result_bind]. unfold torch_add. cbn [shape].
  rewrite bool_decide_eq_true_2 by reflexivity.
  eexists. split; reflexivity.
Qed.

Lemma transpose_for_scores_Ok (self : Module) (a : AttentionAttrs) (x : Tensor)
    (batch s : nat) :
  m_attrs self = Some a ->
  shape x = [batch; s; num_attention_heads a * attention_head_size a] ->
  exists y, transpose_for_scores self x = Ok y /\
            shape y = [batch; num_attention_heads a; s; attention_head_size a].
Proof.
  intros Ha Hx. unfold transpose_for_scores, get_attrs. rewrite Ha.
  cbn [mbind Result_bind]. rewrite Hx.
  replace (Nat.eqb (numel [batch; s; num_attention_heads a * attention_head_size a])
             (numel [batch; s; num_attention_heads a; attention_head_size a])) with true.
  - eexists. split; reflexivity.
  - symmetry. apply Nat.eqb_eq. unfold numel. cbn [fold_right]. lia.
Qed.

(** What an adapted module gives for an input of shape (batch, sequence,
    hidden size): the three projections, each in the per-head layout. *)
Lemma lora_attention_layers (config : Config) (pet : string) (r : nat) (self : Module)
    (x : Tensor) (batch s : nat) :
  is_lora_attention config pet r self ->
  shape x = [batch; s; cfg_hidden_size config] ->
  let heads := cfg_num_attention_heads config in
  let head_size := cfg_hidden_size config / heads in
  exists q ql k kl v vl,
    lora_query self x = Ok q /\ transpose_for_scores self q = Ok ql /\
    key self x = Ok k /\ transpose_for_scores self k = Ok kl /\
    lora_value self x = Ok v /\ transpose_for_scores self v = Ok vl /\
    shape ql = [batch; heads; s; head_size] /\
    shape kl = [batch; heads; s; head_size] /\
    shape vl = [batch; heads; s; head_size].
Proof.
  unfold is_lora_attention. cbv zeta.
  intros (qB & qA & vB & vA & children & -> & Hch & HqB & HqA & HvB & HvA & _) Hx.
  destruct (attention_children_projections _ _ _ Hch)
    as (Hall & q & k & v & Eq & Ek & Ev & Hq & Hk & Hv).
  rewrite Hall in HqB, HqA, HvB, HvA.
  destruct (is_linear_lookup _ _ _ Hq) as (wq & bq & Ewq & Ebq & Hswq & Hsbq & _).
  destruct (is_linear_lookup _ _ _ Hk) as (wk & bk & Ewk & Ebk & Hswk & Hsbk & _).
  destruct (is_linear_lookup _ _ _ Hv) as (wv & bv & Ewv & Ebv & Hswv & Hsbv & _).
  destruct (lora_linear_shape x wq bq _ _ batch s _ r Hx Hswq Hsbq HqB HqA)
    as (yq & Eyq & Hyq).
  destruct (lora_linear_shape x wv bv _ _ batch s _ r Hx Hswv Hsbv HvB HvA)
    as (yv & Eyv & Hyv).
  destruct (F_linear_shape x wk bk batch s _ _ Hx Hswk Hsbk) as (yk & Eyk & Hyk).
  set (self := mkModule _ _ _ _ _).
  assert (Hattrs : m_attrs self
                   = Some (attention_attrs config pet)) by reflexivity.
  assert (Hwidth : num_attention_heads (attention_attrs config pet)
                   * attention_head_size (attention_attrs config pet)
                   = cfg_hidden_size config) by exact Hall.
  rewrite <- Hwidth in Hyq, Hyk, Hyv.
  destruct (transpose_for_scores_Ok self _ yq batch s Hattrs Hyq) as (ql & Eql & Hql).
  destruct (transpose_for_scores_Ok self _ yk batch s Hattrs Hyk) as (kl & Ekl & Hkl).
  destruct (transpose_for_scores_Ok self _ yv batch s Hattrs Hyv) as (vl & Evl & Hvl).
  exists yq, ql, yk, kl, yv, vl.
  repeat split; try assumption.
  - unfold lora_query, query, get_module, get_parameter, Linear_forward.
    cbn [self m_modules m_parameters assoc String.eqb Ascii.eqb Bool.eqb].
    rewrite Eq. cbn [mbind Result_bind]. fold (get_parameter q "weight").
    fold (get_parameter q "bias"). rewrite Ewq, Ebq. exact Eyq.
  - unfold key, get_module, Linear_forward. cbn [self m_modules]. rewrite Ek.
    cbn [mbind Result_bind]. rewrite Ewk, Ebk. exact Eyk.
  - unfold lora_value, value, get_module, get_parameter, Linear_forward.
    cbn [self m_modules m_parameters assoc String.eqb Ascii.eqb Bool.eqb].
    rewrite Ev. cbn [mbind Result_bind]. fold (get_parameter v "weight").
    fold (get_parameter v "bias"). rewrite Ewv, Ebv. exact Eyv.
Qed.

(** X11. Self-attention with a cache on an adapted module: for hidden
    states of [s] positions and a cached key and value of [p] positions, in
    the shapes of the configuration, lines 68 to 106 raise nothing; the query
    layer has [s] positions and the key and value layers [p + s]; and the
    cache that goes out is the grown key and value in a decoder, and the one
    that came in otherwise. *)
Theorem cached_keys_grow (config : Config) (pet : string) (r : nat)
    (self : Module) (x : Tensor) (mask : option Tensor) (past_key past_value : Tensor)
    (batch s p : nat) :
  is_lora_attention config pet r self ->
  shape x = [batch; s; cfg_hidden_size config] ->
  shape past_key = [batch; cfg_num_attention_heads config; p;
                    cfg_hidden_size config / cfg_num_attention_heads config] ->
  shape past_value = [batch; cfg_num_attention_heads config; p;
                      cfg_hidden_size config / cfg_num_attention_heads config] ->
  exists out,
    forward_projections self x mask None None (Some (past_key, past_value)) = Ok out /\
    shape (query_layer out)
    = [batch; cfg_num_attention_heads config; s;
       cfg_hidden_size config / cfg_num_attention_heads config] /\
    shape (key_layer out)
    = [batch; cfg_num_attention_heads config; p + s;
       cfg_hidden_size config / cfg_num_attention_heads config] /\
    shape (value_layer out)
    = [batch; cfg_num_attention_heads config; p + s;
       cfg_hidden_size config / cfg_num_attention_heads config] /\
    use_cache out = true /\
    past_key_value out
    = if cfg_is_decoder config then Some (key_layer out, value_layer out)
      else Some (past_key, past_value).
Proof.
  intros Hself Hx Hpk Hpv.
  set (heads := cfg_num_attention_heads config) in *.
  set (head_size := cfg_hidden_size config / heads) in *.
  destruct (lora_attention_layers config pet r self x batch s Hself Hx)
    as (q & ql & k & kl & v & vl & Eq & Eql & Ek & Ekl & Ev & Evl & Hql & Hkl & Hvl).
  fold heads in Hql, Hkl, Hvl. fold head_size in Hql, Hkl, Hvl.
  unfold forward_projections. rewrite Eq, Ek, Ev. cbn [mbind Result_bind fst snd].
  rewrite Ekl, Evl. cbn [mbind Result_bind].
  rewrite (torch_cat_sequence_axis past_key kl batch heads p s head_size Hpk Hkl).
  rewrite (torch_cat_sequence_axis past_value vl batch heads p s head_size Hpv Hvl).
  cbn [mbind Result_bind]. rewrite Eql. cbn [mbind Result_bind].
  destruct Hself as (qB & qA & vB & vA & children & -> & _).
  cbn [get_attrs m_attrs mbind Result_bind fst snd].
  eexists. split; [reflexivity|].
  cbn [query_layer key_layer value_layer use_cache past_key_value shape
       attention_attrs is_decoder].
  repeat split; assumption.
Qed.

Lemma cached_keys_grow_witness :
  exists out,
    forward_projections example_trained_attention example_hidden None None None
      (Some (example_past_key, example_past_value)) = Ok out /\
    shape (query_layer out) = [1; 2; 1; 2] /\
    shape (key_layer out) = [1; 2; 1 + 1; 2] /\
    shape (value_layer out) = [1; 2; 1 + 1; 2] /\
    use_cache out = true /\
    past_key_value out = Some (example_past_key, example_past_value).
Proof.
  apply (cached_keys_grow example_config "absolute" 2 example_trained_attention
           example_hidden None example_past_key example_past_value 1 1 1).
  - exact example_trained_attention_layout.
  - reflexivity.
  - reflexivity.
  - reflexivity.
Defined.

(** ** Relative positions *)

Lemma forallb_map {A B : Type} (f : B -> bool) (h : A -> B) (l : list A) :
  forallb f (map h l) = forallb (fun a => f (h a)) l.
Proof. induction l as [|a l IH]; simpl; [reflexivity|]. rewrite IH. reflexivity. Qed.

Lemma forallb_map_seq (f : nat -> bool) (n : nat) :
  forallb f (seq 0 n) = true <-> forall i, i < n -> f i = true.
Proof.
  rewrite forallb_forall. split.
  - intros H i Hi. apply H, in_seq. lia.
  - intros H i Hi. apply in_seq in Hi. apply H. lia.
Qed.

(** The indices that [forward] hands to the distance embedding are rows of a
    table of [2 * max - 1] rows exactly when no position is further than
    [max - 1] from another. *)
Lemma relative_indices_in_range (max : nat) (use_cache : bool) (query_length key_length : nat) :
  max <> 0 ->
  forallb (forallb (fun i => (0 <=? i)%Z && (i <? Z.of_nat (2 * max - 1))%Z))
    (map (map (fun z => (z + Z.of_nat max - 1)%Z))
       (distance (position_ids_l use_cache query_length key_length)
                 (position_ids_r key_length))) = true
  <-> if use_cache then key_length <= max
      else query_length = 0 \/ key_length = 0 \/
           (query_length <= max /\ key_length <= max).
Proof.
  intros Hmax. unfold distance, position_ids_l, position_ids_r.
  destruct use_cache.
  - cbn [map forallb]. rewrite andb_true_r, !map_map, forallb_map, forallb_map_seq.
    split.
    + intros H. destruct key_length as [|n]; [lia|].
      specialize (H 0 ltac:(lia)). cbn beta in H.
      apply andb_true_iff in H. destruct H as [_ H]. apply Z.ltb_lt in H. lia.
    + intros H i Hi. apply andb_true_iff. split; [apply Z.leb_le | apply Z.ltb_lt]; lia.
  - rewrite !map_map, forallb_map, forallb_map_seq. split.
    + intros H. destruct query_length as [|l]; [auto|].
      destruct key_length as [|k]; [auto|]. right. right.
      pose proof (H l ltac:(lia)) as Hl. pose proof (H 0 ltac:(lia)) as H0.
      cbn beta in Hl, H0. rewrite !map_map, forallb_map, forallb_map_seq in Hl, H0.
      specialize (Hl 0 ltac:(lia)). specialize (H0 k ltac:(lia)).
      cbn beta in Hl, H0.
      apply andb_true_iff in Hl, H0. destruct Hl as [_ Hl], H0 as [H0 _].
      apply Z.ltb_lt in Hl. apply Z.leb_le in H0. lia.
    + intros H i Hi. rewrite !map_map, forallb_map, forallb_map_seq. intros j Hj.
      apply andb_true_iff. split; [apply Z.leb_le | apply Z.ltb_lt]; lia.
Qed.

(** X12. On an adapted module with relative position embeddings the lookup
    in the distance embedding (lines 115 to 131) stays inside the table of
    [2 * max_position_embeddings - 1] rows exactly when no sequence is longer
    than [max_position_embeddings]: with a cache, when the key length (cached
    and new positions together) is at most that; without one, when the query
    length and the key length both are, or one of them is 0.  Otherwise torch
    raises its index error. *)
Theorem relative_positions_bound (config : Config) (pet : string) (r : nat)
    (self : Module) (use_cache : bool) (query_length key_length : nat) :
  is_lora_attention config pet r self ->
  is_relative pet = true ->
  exists rows,
    positional_embedding self use_cache query_length key_length = Ok rows /\
    (is_Some rows <->
     if use_cache then key_length <= cfg_max_position_embeddings config
     else query_length = 0 \/ key_length = 0 \/
          (query_length <= cfg_max_position_embeddings config /\
           key_length <= cfg_max_position_embeddings config)).
Proof.
  intros (qB & qA & vB & vA & children & -> & Hch & _) Hrel.
  destruct Hch as (_ & _ & q & k & v & rest & -> & _ & _ & _ & Hrest).
  rewrite Hrel in Hrest. destruct Hrest as (Hmax & e & -> & we & -> & He & _).
  unfold positional_embedding, attention_attrs. rewrite Hrel.
  cbn [get_attrs m_attrs mbind Result_bind max_position_embeddings].
  eexists. split; [reflexivity|].
  unfold Embedding_forward. cbn [p_data]. rewrite He.
  pose proof (relative_indices_in_range (cfg_max_position_embeddings config) use_cache
                query_length key_length Hmax) as Hrange.
  destruct (forallb _ _).
  - split; [intros _; apply Hrange; reflexivity | intros _; eauto].
  - split; [intros [? [=]] | intros H; apply Hrange in H; discriminate].
Qed.

Lemma relative_positions_bound_witness :
  exists rows,
    positional_embedding example_relative_attention true 1 4 = Ok rows /\
    (is_Some rows <-> 4 <= 3).
Proof.
  apply (relative_positions_bound example_decoder_config "relative_key" 2
           example_relative_attention true 1 4).
  - exact example_relative_layout.
  - reflexivity.
Defined.

(** ** Splitting into heads and merging back *)

Lemma entry_flat_map_seq (f : nat -> list Z) (m : nat) :
  (forall i, length (f i) = m) ->
  forall n a i j, i < n -> j < m ->
    entry (flat_map f (seq a n)) (i * m + j) = entry (f (a + i)) j.
Proof.
  intros Hlen. unfold entry. induction n as [|n IH]; intros a i j Hi Hj; [lia|].
  cbn [seq flat_map]. destruct i as [|i].
  - rewrite app_nth1 by (rewrite Hlen; lia). rewrite Nat.add_0_r. reflexivity.
  - rewrite app_nth2 by (rewrite Hlen; lia). rewrite Hlen.
    replace (S i * m + j - m) with (i * m + j) by lia.
    rewrite IH by lia. f_equal. f_equal. lia.
Qed.

Lemma entry_map_seq (F : nat -> Z) (n j : nat) :
  j < n -> entry (map F (seq 0 n)) j = F j.
Proof.
  intros Hj. unfold entry.
  rewrite (nth_indep _ 0%Z (F 0)) by (rewrite length_map, length_seq; exact Hj).
  rewrite map_nth, seq_nth by exact Hj. reflexivity.
Qed.

Lemma map_add_seq (a m : nat) :
  forall s, map (fun j => a + j) (seq s m) = seq (a + s) m.
Proof.
  induction m as [|m IH]; intros s; [reflexivity|].
  cbn [seq map]. rewrite IH. f_equal. f_equal. lia.
Qed.

Lemma flat_map_map_seq (F : nat -> Z) (n m : nat) :
  flat_map (fun i => map (fun j => F (i * m + j)) (seq 0 m)) (seq 0 n)
  = map F (seq 0 (n * m)).
Proof.
  induction n as [|n IH]; [reflexivity|].
  rewrite seq_S, flat_map_app, IH. cbn [flat_map]. rewrite app_nil_r.
  replace (S n * m) with (n * m + m) by lia.
  rewrite seq_app, map_app. f_equal. cbn [Nat.add].
  rewrite <- (map_map (fun j => n * m + j) F). f_equal.
  rewrite map_add_seq. f_equal. lia.
Qed.

Lemma map_entry_seq (l : list Z) : map (entry l) (seq 0 (length l)) = l.
Proof.
  apply (nth_ext _ _ 0%Z 0%Z); [rewrite length_map, length_seq; reflexivity|].
  intros i Hi. rewrite length_map, length_seq in Hi.
  exact (entry_map_seq (entry l) (length l) i Hi).
Qed.

(** The entries of [transpose_for_scores]. *)
Lemma transpose_for_scores_entry (x : list Z) (b H s hs bi h si j : nat) :
  bi < b -> h < H -> si < s -> j < hs ->
  entry (flat_map (fun bi =>
           flat_map (fun h =>
             flat_map (fun si =>
               map (fun j => entry x ((bi * s + si) * (H * hs) + h * hs + j)) (seq 0 hs))
               (seq 0 s))
             (seq 0 H))
           (seq 0 b))
        (((bi * H + h) * s + si) * hs + j)
  = entry x ((bi * s + si) * (H * hs) + h * hs + j).
Proof.
  intros Hbi Hh Hsi Hj.
  replace (((bi * H + h) * s + si) * hs + j)
    with (bi * (H * (s * hs)) + (h * (s * hs) + (si * hs + j))) by lia.
  assert (Hin : si * hs + j < s * hs) by nia.
  assert (Hmid : h * (s * hs) + (si * hs + j) < H * (s * hs)) by nia.
  rewrite (entry_flat_map_seq _ (H * (s * hs))); [|..|exact Hbi|exact Hmid].
  - rewrite (entry_flat_map_seq _ (s * hs)); [|..|exact Hh|exact Hin].
    + rewrite (entry_flat_map_seq _ hs); [|..|exact Hsi|exact Hj].
      * rewrite entry_map_seq by exact Hj. reflexivity.
      * intros i. rewrite length_map, length_seq. reflexivity.
    + intros i. rewrite (flat_map_length_const _ _ hs).
      * rewrite length_seq. reflexivity.
      * intros k. rewrite length_map, length_seq. reflexivity.
  - intros i. rewrite (flat_map_length_const _ _ (s * hs)).
    + rewrite length_seq. reflexivity.
    + intros k. rewrite (flat_map_length_const _ _ hs).
      * rewrite length_seq. reflexivity.
      * intros k'. rewrite length_map, length_seq. reflexivity.
Qed.

Lemma flat_map_ext_seq {B : Type} (f g : nat -> list B) (n : nat) :
  (forall i, i < n -> f i = g i) -> flat_map f (seq 0 n) = flat_map g (seq 0 n).
Proof.
  intros H. rewrite !flat_map_concat_map. f_equal.
  apply map_ext_in. intros i Hi. apply in_seq in Hi. apply H. lia.
Qed.

Lemma map_ext_seq {B : Type} (f g : nat -> B) (n : nat) :
  (forall i, i < n -> f i = g i) -> map f (seq 0 n) = map g (seq 0 n).
Proof.
  intros H. apply map_ext_in. intros i Hi. apply in_seq in Hi. apply H. lia.
Qed.

(** X13. The merge of the heads at the end of [forward] (lines 172 to 174)
    undoes [transpose_for_scores]: a tensor of shape (batch, sequence, all
    head size) that is split into heads and merged back comes out as it went
    in, entry for entry. *)
Theorem merge_heads_undoes_transpose (self : Module) (a : AttentionAttrs) (x : Tensor)
    (batch s : nat) :
  m_attrs self = Some a ->
  all_head_size a = num_attention_heads a * attention_head_size a ->
  shape x = [batch; s; all_head_size a] ->
  well_formed x ->
  (y ← transpose_for_scores self x; merge_heads self y) = Ok x.
Proof.
  intros Ha Hall Hx Hwf. unfold transpose_for_scores, merge_heads, get_attrs.
  rewrite Ha. cbn [mbind Result_bind]. rewrite Hx.
  set (H := num_attention_heads a) in *. set (hs := attention_head_size a) in *.
  assert (Hnumel : numel [batch; s; all_head_size a] = numel [batch; s; H; hs])
    by (unfold numel; cbn [fold_right]; rewrite Hall; lia).
  rewrite Hnumel. rewrite !Nat.eqb_refl. cbn [mbind Result_bind shape].
  rewrite <- Hnumel, Nat.eqb_refl. destruct x as [sh dx]. cbn [shape data] in *.
  subst sh. f_equal. f_equal.
  unfold well_formed in Hwf. cbn [shape data] in Hwf.
  transitivity (map (entry dx) (seq 0 (length dx))); [|apply map_entry_seq].
  rewrite Hwf, Hnumel.
  unfold numel. cbn [fold_right]. rewrite Nat.mul_1_r.
  rewrite <- (flat_map_map_seq (entry dx) batch (s * (H * hs))).
  apply flat_map_ext_seq. intros bi Hbi.
  rewrite <- (flat_map_map_seq (fun k => entry dx (bi * (s * (H * hs)) + k)) s (H * hs)).
  apply flat_map_ext_seq. intros si Hsi.
  rewrite <- (flat_map_map_seq
                (fun k => entry dx (bi * (s * (H * hs)) + (si * (H * hs) + k))) H hs).
  apply flat_map_ext_seq. intros h Hh.
  apply map_ext_seq. intros j Hj.
  rewrite (transpose_for_scores_entry dx batch H s hs bi h si j) by assumption.
  f_equal. lia.
Qed.

Lemma merge_heads_undoes_transpose_witness :
  (y ← transpose_for_scores example_attention example_two_tokens;
   merge_heads example_attention y) = Ok example_two_tokens.
Proof.
  apply (merge_heads_undoes_transpose example_attention
           (attention_attrs example_config "absolute") example_two_tokens 1 2).
  - reflexivity.
  - reflexivity.
  - reflexivity.
  - reflexivity.
Defined.
